(** * PdfLayoutViewer: a shallow embedding of the manual-correction viewer

    The component of [src/postprocessing/manual_correction/src/PdfLayoutViewer.tsx]
    keeps its state in ten [useState] hooks and changes it from event
    handlers and effects.  The hooks become one record, every handler a
    function from the state of the render it closes over to the state after
    its setters have run, and the asynchronous page load a computation in a
    small state-and-exception monad. *)

From Stdlib Require Import ZArith QArith Qabs Qreduction Qround Bool List String Ascii Lia.
From Stdlib Require Import DecimalString DecimalNat DecimalZ FinFun Lqa.
From Stdlib Require Import Uint63 Floats.
Import ListNotations.

Local Open Scope string_scope.
Local Open Scope bool_scope.

(** ** JavaScript numbers

    Coordinates are JavaScript [number]s.  The viewer only adds, subtracts,
    halves, takes absolute values and compares them, so the handlers are
    parametric in the carrier and in these operations, and what is proved
    of them for every carrier holds of binary64 in particular.
    [num_undefined] is what array destructuring binds when the array is
    too short. *)

Class JsNumber (num : Type) : Type := {
  num_lit : Z -> num;
  num_undefined : num;
  num_add : num -> num -> num;
  num_sub : num -> num -> num;
  num_div : num -> num -> num;
  num_abs : num -> num;
  num_le : num -> num -> bool;
  num_ge : num -> num -> bool
}.

Declare Scope js_scope.
Delimit Scope js_scope with js.
Notation "a + b" := (num_add a b) : js_scope.
Notation "a - b" := (num_sub a b) : js_scope.
Notation "a / b" := (num_div a b) : js_scope.
Notation "a <=? b" := (num_le a b) : js_scope.
Notation "a >=? b" := (num_ge a b) : js_scope.

(** Exact rationals extended with one non-number, for running the model
    on coordinates that binary64 holds exactly: [None] is both [NaN] and a
    coerced [undefined], which the arithmetic and the comparisons of the
    viewer cannot tell apart.  This arithmetic does not round. *)

Definition number : Type := option Q.

Definition number_lift2 (f : Q -> Q -> Q) (a b : number) : number :=
  match a, b with
  | Some p, Some q => Some (Qred (f p q))
  | _, _ => None
  end.

Definition number_cmp (f : Q -> Q -> bool) (a b : number) : bool :=
  match a, b with
  | Some p, Some q => f p q
  | _, _ => false
  end.

#[export] Instance number_JsNumber : JsNumber number := {
  num_lit := fun z => Some (inject_Z z);
  num_undefined := None;
  num_add := number_lift2 Qplus;
  num_sub := number_lift2 Qminus;
  num_div := number_lift2 Qdiv;
  num_abs := option_map Qabs;
  num_le := number_cmp Qle_bool;
  num_ge := number_cmp (fun p q => Qle_bool q p)
}.

(** The [number]s of the engine are binary64 doubles.  [float_of_Z n] is
    the double nearest to the integer [n], for [n] of magnitude below
    [2^63]; up to [2^53] it is [n] itself. *)

Definition float_of_Z (n : Z) : float :=
  if (n <? 0)%Z then PrimFloat.opp (PrimFloat.of_uint63 (Uint63.of_Z (- n)))
  else PrimFloat.of_uint63 (Uint63.of_Z n).

Definition binary64_JsNumber : JsNumber float := {|
  num_lit := float_of_Z;
  num_undefined := PrimFloat.nan;
  num_add := PrimFloat.add;
  num_sub := PrimFloat.sub;
  num_div := PrimFloat.div;
  num_abs := PrimFloat.abs;
  num_le := PrimFloat.leb;
  num_ge := fun a b => PrimFloat.leb b a
|}.

(** [Math.max] of two numbers: [NaN] when either is, else the larger, and
    [+0] rather than [-0] when the two are zeros of different sign. *)
Definition Math_max (a b : float) : float :=
  if PrimFloat.is_nan a || PrimFloat.is_nan b then PrimFloat.nan
  else if PrimFloat.ltb a b then b
  else if PrimFloat.ltb b a then a
  else match PrimFloat.classify a with NZero => b | _ => a end.

(** ** JavaScript values that reach a colour slot *)

(** [categoryColors[key]] is a property read on an object literal: an own
    property gives its string, a name found on [Object.prototype] gives
    that inherited member (a function, or the prototype object itself for
    [__proto__]), anything else gives [undefined]. *)

Inductive JsValue : Type :=
| VString (s : string)
| VInherited (key : string)
| VUndefined.

Definition truthy (v : JsValue) : bool :=
  match v with
  | VString s => negb (String.eqb s "")
  | VInherited _ => true
  | VUndefined => false
  end.

(** [a || b] *)
Definition js_or (a b : JsValue) : JsValue :=
  if truthy a then a else b.

Definition objectPrototypeKeys : list string :=
  [ "constructor"; "__defineGetter__"; "__defineSetter__"; "hasOwnProperty";
    "__lookupGetter__"; "__lookupSetter__"; "isPrototypeOf";
    "propertyIsEnumerable"; "toString"; "valueOf"; "__proto__";
    "toLocaleString" ].

Definition isPrototypeKey (key : string) : bool :=
  existsb (String.eqb key) objectPrototypeKeys.

Definition categoryColors (key : string) : JsValue :=
  if String.eqb key "title" then VString "black"
  else if String.eqb key "image" then VString "blue"
  else if String.eqb key "text" then VString "grey"
  else if String.eqb key "interline_equation" then VString "green"
  else if isPrototypeKey key then VInherited key
  else VUndefined.

(** ** The layout document *)

(** Only the fields the component reads are kept: [Block.lines], and the
    fields of [PageInfo] and [JsonData] other than [preproc_blocks] and
    [pdf_info], are never looked at.  [preproc_blocks] is tested for
    truthiness before use, so an absent (or otherwise falsy) field is
    [None]; an empty array is truthy and is [Some []]. *)

Module Block.
Record t {num : Type} : Type := mk {
  type : string;
  bbox : list num
}.
Arguments t : clear implicits.
Arguments mk {num}.
End Block.

Module PageInfo.
Record t {num : Type} : Type := mk {
  preproc_blocks : option (list (Block.t num))
}.
Arguments t : clear implicits.
Arguments mk {num}.
End PageInfo.

Module JsonData.
Record t {num : Type} : Type := mk {
  pdf_info : list (PageInfo.t num)
}.
Arguments t : clear implicits.
Arguments mk {num}.
End JsonData.

(** ** Rectangles and drag state *)

Module DraggableRect.
Record t {num : Type} : Type := mk {
  id : string;
  x : num;
  y : num;
  width : num;
  height : num;
  color : JsValue;
  type : string
}.
Arguments t : clear implicits.
Arguments mk {num}.

(** The four overrides the spreads [{ ...r, x: _, ... }] use. *)
Section Update.
Context {num : Type}.

Definition set_x (v : num) (r : t num) : t num :=
  mk (id r) v (y r) (width r) (height r) (color r) (type r).

Definition set_y (v : num) (r : t num) : t num :=
  mk (id r) (x r) v (width r) (height r) (color r) (type r).

Definition set_width (v : num) (r : t num) : t num :=
  mk (id r) (x r) (y r) v (height r) (color r) (type r).

Definition set_height (v : num) (r : t num) : t num :=
  mk (id r) (x r) (y r) (width r) v (color r) (type r).
End Update.
End DraggableRect.

Module DragMode.
Inductive t : Type :=
  | None
  | Move
  | ResizeTop
  | ResizeRight
  | ResizeBottom
  | ResizeLeft
  | ResizeTopLeft
  | ResizeTopRight
  | ResizeBottomLeft
  | ResizeBottomRight.

Definition eqb (a b : t) : bool :=
  match a, b with
  | None, None | Move, Move | ResizeTop, ResizeTop
  | ResizeRight, ResizeRight | ResizeBottom, ResizeBottom
  | ResizeLeft, ResizeLeft | ResizeTopLeft, ResizeTopLeft
  | ResizeTopRight, ResizeTopRight | ResizeBottomLeft, ResizeBottomLeft
  | ResizeBottomRight, ResizeBottomRight => true
  | _, _ => false
  end.
End DragMode.

Module Point.
Record t {num : Type} : Type := mk { x : num; y : num }.
Arguments t : clear implicits.
Arguments mk {num}.
End Point.

Module Size.
Record t {num : Type} : Type := mk { width : num; height : num }.
Arguments t : clear implicits.
Arguments mk {num}.
End Size.

(** ** Component state: one field per [useState] hook *)

(** The page number is a [number] the component computes with, so it is
    kept as the double it is. *)

Module State.
Record t {num : Type} : Type := mk {
  pageNumber : float;
  imageUrl : option string;
  jsonData : option (JsonData.t num);
  loading : bool;
  error : option string;
  imageDimensions : Size.t num;
  rectangles : list (DraggableRect.t num);
  dragMode : DragMode.t;
  draggedRectId : option string;
  lastMousePos : Point.t num
}.
Arguments t : clear implicits.
Arguments mk {num}.
End State.

Section Setters.
Context {num : Type}.
Import State.

Definition setPageNumber (f : float -> float) (s : State.t num) : State.t num :=
  mk (f (pageNumber s)) (imageUrl s) (jsonData s) (loading s) (error s)
     (imageDimensions s) (rectangles s) (dragMode s) (draggedRectId s)
     (lastMousePos s).
Definition setImageUrl (v : option string) (s : State.t num) : State.t num :=
  mk (pageNumber s) v (jsonData s) (loading s) (error s)
     (imageDimensions s) (rectangles s) (dragMode s) (draggedRectId s)
     (lastMousePos s).
Definition setJsonData (v : option (JsonData.t num)) (s : State.t num) : State.t num :=
  mk (pageNumber s) (imageUrl s) v (loading s) (error s)
     (imageDimensions s) (rectangles s) (dragMode s) (draggedRectId s)
     (lastMousePos s).
Definition setLoading (v : bool) (s : State.t num) : State.t num :=
  mk (pageNumber s) (imageUrl s) (jsonData s) v (error s)
     (imageDimensions s) (rectangles s) (dragMode s) (draggedRectId s)
     (lastMousePos s).
Definition setError (v : option string) (s : State.t num) : State.t num :=
  mk (pageNumber s) (imageUrl s) (jsonData s) (loading s) v
     (imageDimensions s) (rectangles s) (dragMode s) (draggedRectId s)
     (lastMousePos s).
Definition setRectangles
      (f : list (DraggableRect.t num) -> list (DraggableRect.t num))
      (s : State.t num) : State.t num :=
  mk (pageNumber s) (imageUrl s) (jsonData s) (loading s) (error s)
     (imageDimensions s) (f (rectangles s)) (dragMode s) (draggedRectId s)
     (lastMousePos s).
Definition setDragMode (v : DragMode.t) (s : State.t num) : State.t num :=
  mk (pageNumber s) (imageUrl s) (jsonData s) (loading s) (error s)
     (imageDimensions s) (rectangles s) v (draggedRectId s)
     (lastMousePos s).
Definition setDraggedRectId (v : option string) (s : State.t num) : State.t num :=
  mk (pageNumber s) (imageUrl s) (jsonData s) (loading s) (error s)
     (imageDimensions s) (rectangles s) (dragMode s) v
     (lastMousePos s).
Definition setLastMousePos (v : Point.t num) (s : State.t num) : State.t num :=
  mk (pageNumber s) (imageUrl s) (jsonData s) (loading s) (error s)
     (imageDimensions s) (rectangles s) (dragMode s) (draggedRectId s)
     v.
End Setters.

(** ** Exceptions *)

(** What a [catch] clause can receive: an [Error] object, whose [message]
    is read, or any other thrown value. *)
Inductive Thrown : Type :=
| ErrorObject (message : string)
| NonError.

(** ** DOM inputs of the pointer handlers *)

Module MouseEvent.
Record t {num : Type} : Type := mk { clientX : num; clientY : num }.
Arguments t : clear implicits.
Arguments mk {num}.
End MouseEvent.

(** [canvas.getBoundingClientRect()] *)
Module DOMRect.
Record t {num : Type} : Type := mk { left : num; top : num }.
Arguments t : clear implicits.
Arguments mk {num}.
End DOMRect.

(** ** Array helpers *)

Section Arrays.
Context {A B St : Type}.

(** [Array.prototype.map] with the index argument. *)
Fixpoint map_from (f : A -> nat -> B) (index : nat) (l : list A) : list B :=
  match l with
  | [] => []
  | a :: l' => f a index :: map_from f (S index) l'
  end.

Definition array_map_index (f : A -> nat -> B) (l : list A) : list B :=
  map_from f 0 l.

(** [Array.prototype.find] with a callback that may call state setters:
    elements are visited in order and the first one on which the callback
    answers [true] is returned; later elements are not visited. *)
Fixpoint array_find (cb : A -> St -> bool * St) (l : list A) (s : St)
  : option A * St :=
  match l with
  | [] => (None, s)
  | a :: l' =>
      let (found, s') := cb a s in
      if found then (Some a, s') else array_find cb l' s'
  end.
End Arrays.

Definition string_of_nat (n : nat) : string :=
  NilEmpty.string_of_uint (Nat.to_uint n).

(** ** The geometry editor *)

Section Editor.
Context {num : Type} `{JsNumber num}.
Local Open Scope js_scope.

Definition handleSize : num := num_lit 8.

(** The callback of [preproc_blocks.map] in the [jsonData] effect. *)
Definition blockToRect (block : Block.t num) (index : nat) : DraggableRect.t num :=
  let x0 := nth 0 (Block.bbox block) num_undefined in
  let y0 := nth 1 (Block.bbox block) num_undefined in
  let x1 := nth 2 (Block.bbox block) num_undefined in
  let y1 := nth 3 (Block.bbox block) num_undefined in
  DraggableRect.mk
    ("rect-" ++ string_of_nat index)
    x0
    y0
    (x1 - x0)
    (y1 - y0)
    (js_or (categoryColors (Block.type block)) (VString "black"))
    (Block.type block).

(** [useEffect(..., [jsonData])].  Reading [preproc_blocks] of
    [pdf_info[0]] throws a [TypeError] when [pdf_info] is empty: the
    result is then [None]. *)
Definition jsonDataEffect (s : State.t num) : option (State.t num) :=
  match State.jsonData s with
  | Some jsonData =>
      match JsonData.pdf_info jsonData with
      | [] => None
      | jd001 :: _ =>
          match PageInfo.preproc_blocks jd001 with
          | Some preproc_blocks =>
              let newRectangles := array_map_index blockToRect preproc_blocks in
              Some (setRectangles (fun _ => newRectangles) s)
          | None => Some s
          end
      end
  | None => Some s
  end.

(** The callback of [rectangles.find] in [handleMouseDown], at pointer
    position [(x, y)]. *)
Definition hitCallback (x y : num) (r : DraggableRect.t num) (s : State.t num)
  : bool * State.t num :=
  let rx := DraggableRect.x r in
  let ry := DraggableRect.y r in
  let rw := DraggableRect.width r in
  let rh := DraggableRect.height r in
  if (num_abs (x - rx) <=? handleSize) && (num_abs (y - ry) <=? handleSize)
  then (true, setDragMode DragMode.ResizeTopLeft s)
  else if (num_abs (x - (rx + rw)) <=? handleSize) && (num_abs (y - ry) <=? handleSize)
  then (true, setDragMode DragMode.ResizeTopRight s)
  else if (num_abs (x - rx) <=? handleSize) && (num_abs (y - (ry + rh)) <=? handleSize)
  then (true, setDragMode DragMode.ResizeBottomLeft s)
  else if (num_abs (x - (rx + rw)) <=? handleSize) && (num_abs (y - (ry + rh)) <=? handleSize)
  then (true, setDragMode DragMode.ResizeBottomRight s)
  else if (num_abs (x - (rx + rw / num_lit 2)) <=? handleSize) && (num_abs (y - ry) <=? handleSize)
  then (true, setDragMode DragMode.ResizeTop s)
  else if (num_abs (x - (rx + rw)) <=? handleSize) && (num_abs (y - (ry + rh / num_lit 2)) <=? handleSize)
  then (true, setDragMode DragMode.ResizeRight s)
  else if (num_abs (x - (rx + rw / num_lit 2)) <=? handleSize) && (num_abs (y - (ry + rh)) <=? handleSize)
  then (true, setDragMode DragMode.ResizeBottom s)
  else if (num_abs (x - rx) <=? handleSize) && (num_abs (y - (ry + rh / num_lit 2)) <=? handleSize)
  then (true, setDragMode DragMode.ResizeLeft s)
  else if (x >=? rx) && (x <=? rx + rw) && (y >=? ry) && (y <=? ry + rh)
  then (true, setDragMode DragMode.Move s)
  else (false, s).

(** [canvas] is [canvasRef.current] reduced to its bounding rectangle. *)
Definition handleMouseDown (canvas : option (DOMRect.t num)) (e : MouseEvent.t num)
    (s : State.t num) : State.t num :=
  match canvas with
  | None => s
  | Some rect =>
      let x := MouseEvent.clientX e - DOMRect.left rect in
      let y := MouseEvent.clientY e - DOMRect.top rect in
      let (clickedRect, s1) := array_find (hitCallback x y) (State.rectangles s) s in
      match clickedRect with
      | Some c =>
          setLastMousePos (Point.mk x y)
            (setDraggedRectId (Some (DraggableRect.id c)) s1)
      | None => s1
      end
  end.

(** The [switch (dragMode)] of [handleMouseMove]. *)
Definition applyDrag (dragMode : DragMode.t) (dx dy : num) (r : DraggableRect.t num)
  : DraggableRect.t num :=
  let rx := DraggableRect.x r in
  let ry := DraggableRect.y r in
  let rw := DraggableRect.width r in
  let rh := DraggableRect.height r in
  match dragMode with
  | DragMode.Move =>
      DraggableRect.set_y (ry + dy) (DraggableRect.set_x (rx + dx) r)
  | DragMode.ResizeTop =>
      DraggableRect.set_height (rh - dy) (DraggableRect.set_y (ry + dy) r)
  | DragMode.ResizeRight =>
      DraggableRect.set_width (rw + dx) r
  | DragMode.ResizeBottom =>
      DraggableRect.set_height (rh + dy) r
  | DragMode.ResizeLeft =>
      DraggableRect.set_width (rw - dx) (DraggableRect.set_x (rx + dx) r)
  | DragMode.ResizeTopLeft =>
      DraggableRect.set_height (rh - dy) (DraggableRect.set_width (rw - dx)
        (DraggableRect.set_y (ry + dy) (DraggableRect.set_x (rx + dx) r)))
  | DragMode.ResizeTopRight =>
      DraggableRect.set_height (rh - dy) (DraggableRect.set_width (rw + dx)
        (DraggableRect.set_y (ry + dy) r))
  | DragMode.ResizeBottomLeft =>
      DraggableRect.set_height (rh + dy) (DraggableRect.set_width (rw - dx)
        (DraggableRect.set_x (rx + dx) r))
  | DragMode.ResizeBottomRight =>
      DraggableRect.set_height (rh + dy) (DraggableRect.set_width (rw + dx) r)
  | DragMode.None => r
  end.

(** The callback of [prevRects.map] in [handleMouseMove]. *)
Definition dragCallback (dragMode : DragMode.t) (draggedRectId : string)
    (dx dy : num) (r : DraggableRect.t num) : DraggableRect.t num :=
  if negb (String.eqb (DraggableRect.id r) draggedRectId) then r
  else applyDrag dragMode dx dy r.

(** [!draggedRectId]: [null] and the empty string are falsy. *)
Definition draggedRectId_falsy (draggedRectId : option string) : bool :=
  match draggedRectId with
  | Some d => String.eqb d ""
  | None => true
  end.

Definition handleMouseMove (canvas : option (DOMRect.t num)) (e : MouseEvent.t num)
    (s : State.t num) : State.t num :=
  if DragMode.eqb (State.dragMode s) DragMode.None
     || draggedRectId_falsy (State.draggedRectId s)
  then s
  else
    match canvas with
    | None => s
    | Some rect =>
        let x := MouseEvent.clientX e - DOMRect.left rect in
        let y := MouseEvent.clientY e - DOMRect.top rect in
        let dx := x - Point.x (State.lastMousePos s) in
        let dy := y - Point.y (State.lastMousePos s) in
        let draggedRectId :=
          match State.draggedRectId s with Some d => d | None => "" end in
        setLastMousePos (Point.mk x y)
          (setRectangles
             (fun prevRects =>
                map (dragCallback (State.dragMode s) draggedRectId dx dy) prevRects)
             s)
    end.

Definition handleMouseUp (s : State.t num) : State.t num :=
  setDraggedRectId None (setDragMode DragMode.None s).

(** ** Page navigation *)

Definition handlePreviousPage (s : State.t num) : State.t num :=
  setPageNumber (fun prevNumber => Math_max 0 (prevNumber - 1)%float) s.

Definition handleNextPage (s : State.t num) : State.t num :=
  setPageNumber (fun prevNumber => (prevNumber + 1)%float) s.

End Editor.

(** ** The page loader *)

(** A [Blob] is the binary body of the image response. *)
Definition Blob : Type := list Byte.byte.

(** A [fetch] response: its [ok] flag and what [.json()] and [.blob()]
    resolve to (or reject with). *)
Module Response.
Record t {num : Type} : Type := mk {
  ok : bool;
  json : Thrown + option (JsonData.t num);
  blob : Thrown + Blob
}.
Arguments t : clear implicits.
Arguments mk {num}.
End Response.

Module Props.
Record t : Type := mk {
  baseUrl : string;
  filePrefix : string;
  initialPageNumber : float;
  formatPageNumber : float -> string
}.
End Props.

(** What the browser answers: [fetch] rejects or resolves to a response,
    per URL. *)
Module Browser.
Record t {num : Type} : Type := mk {
  fetch : string -> Thrown + Response.t num;
  encodeURIComponent : string -> string;
  createObjectURL : Blob -> string
}.
Arguments t : clear implicits.
Arguments mk {num}.
End Browser.

Section Loader.
Context {num : Type}.

(** State setters take effect as they are called; a throw keeps the
    state reached so far and skips the rest of the [try] block. *)
Definition Async (A : Type) : Type :=
  State.t num -> (Thrown + A) * State.t num.

Definition ret {A : Type} (a : A) : Async A :=
  fun s => (inr a, s).

Definition bind {A B : Type} (m : Async A) (k : A -> Async B) : Async B :=
  fun s =>
    match m s with
    | (inr a, s') => k a s'
    | (inl e, s') => (inl e, s')
    end.

Definition throw {A : Type} (e : Thrown) : Async A :=
  fun s => (inl e, s).

Definition await {A : Type} (r : Thrown + A) : Async A :=
  fun s => (r, s).

Definition call (setter : State.t num -> State.t num) : Async unit :=
  fun s => (inr tt, setter s).

Definition try_catch (body : Async unit) (handler : Thrown -> Async unit)
  : Async unit :=
  fun s =>
    match body s with
    | (inr tt, s') => (inr tt, s')
    | (inl err, s') => handler err s'
    end.

Notation "x <- m ;; k" := (bind m (fun x => k))
  (at level 61, m at next level, right associativity).
Notation "m ;; k" := (bind m (fun _ => k))
  (at level 61, right associativity).

Definition jsonUrl (props : Props.t) (browser : Browser.t num)
    (formattedPageNumber : string) : string :=
  Props.baseUrl props ++ "/api/get-json-file?fileName="
  ++ Browser.encodeURIComponent browser
       (Props.filePrefix props ++ "-" ++ formattedPageNumber).

Definition imageUrlOf (props : Props.t) (browser : Browser.t num)
    (formattedPageNumber : string) : string :=
  Props.baseUrl props ++ "/api/get-pdf-file?fileName="
  ++ Browser.encodeURIComponent browser
       (Props.filePrefix props ++ "-" ++ formattedPageNumber).

(** [loadFiles] of the first effect, for the [pageNumber] of the render
    that scheduled it.  [console.error] only logs and is left out. *)
Definition loadFiles (props : Props.t) (browser : Browser.t num)
    (pageNumber : float) : Async unit :=
  try_catch
    (call (setLoading true) ;;
     let formattedPageNumber := Props.formatPageNumber props pageNumber in
     jsonResponse <- await (Browser.fetch browser
                              (jsonUrl props browser formattedPageNumber)) ;;
     (if negb (Response.ok jsonResponse)
      then throw (ErrorObject "Failed to load JSON file")
      else ret tt) ;;
     data <- await (Response.json jsonResponse) ;;
     call (setJsonData data) ;;
     imageResponse <- await (Browser.fetch browser
                               (imageUrlOf props browser formattedPageNumber)) ;;
     (if negb (Response.ok imageResponse)
      then throw (ErrorObject "Failed to load image file")
      else ret tt) ;;
     imageBlob <- await (Response.blob imageResponse) ;;
     call (setImageUrl (Some (Browser.createObjectURL browser imageBlob))) ;;
     call (setLoading false))
    (fun err =>
       call (setError (Some match err with
                            | ErrorObject message => message
                            | NonError => "An unknown error occurred"
                            end)) ;;
       call (setLoading false)).

(** The state once the load started from [s] has settled. *)
Definition loadFilesFrom (props : Props.t) (browser : Browser.t num)
    (s : State.t num) : State.t num :=
  snd (loadFiles props browser (State.pageNumber s) s).

(** ** What the component returns *)

Inductive View : Type :=
| LoadingView
| ErrorView (message : string)
| ViewerView (image : option string) (pageLabel : float)
             (previousDisabled nextDisabled : bool).

(** [if (error)] and [imageUrl && ...]: [null] and [""] are falsy. *)
Definition truthy_string (v : option string) : option string :=
  match v with
  | Some str => if String.eqb str "" then None else Some str
  | None => None
  end.

(** The [disabled] attributes of the two buttons. *)
Definition previousDisabled (s : State.t num) : bool :=
  (State.pageNumber s <=? 0)%float.

Definition nextDisabled (s : State.t num) : bool :=
  false.

Definition render (s : State.t num) : View :=
  if State.loading s then LoadingView
  else
    match truthy_string (State.error s) with
    | Some message => ErrorView message
    | None =>
        ViewerView (truthy_string (State.imageUrl s))
                   (State.pageNumber s + 1)%float
                   (previousDisabled s)
                   (nextDisabled s)
    end.

End Loader.

(** ** [Number.prototype.toString]

    The decimal string of a double is the shortest digit string that
    reads back as that double, and of several such the one closest to it
    (ECMAScript, Number::toString, radix 10). *)

Definition Qlt_bool (a b : Q) : bool := negb (Qle_bool b a).

(** The reals that round to a positive finite double: the double itself
    and the two ends of the interval around it, which belong to it when
    the mantissa is even. *)
Module Rounding.
Record t : Type := mk {
  value : Q;
  lo : Q;
  hi : Q;
  closed : bool
}.
End Rounding.

(** The double with mantissa [m] and exponent [e] is [m * 2^e].  The next
    double above is [2^e] away, and so is the one below, except that it is
    [2^(e-1)] away when [m] is the least normal mantissa; a real half-way
    between two doubles rounds to the one with the even mantissa. *)
Definition roundingInterval (m : positive) (e : Z) : Rounding.t :=
  let v := Qred (inject_Z (Zpos m) * Qpower 2 e) in
  let above := Qpower 2 e in
  let below :=
    if (Zpos m =? 2 ^ 52)%Z && (-1074 <? e)%Z then Qpower 2 (e - 1) else above in
  Rounding.mk v (Qred (v - below / 2)) (Qred (v + above / 2)) (Z.even (Zpos m)).

Definition roundsTo (i : Rounding.t) (r : Q) : bool :=
  if Rounding.closed i
  then Qle_bool (Rounding.lo i) r && Qle_bool r (Rounding.hi i)
  else Qlt_bool (Rounding.lo i) r && Qlt_bool r (Rounding.hi i).

(** How many times [v < 1] is multiplied by 10 before it reaches 1. *)
Fixpoint leadingZeros (fuel : nat) (v : Q) : nat :=
  match fuel with
  | O => O
  | S fuel' => if Qle_bool 1 v then O else S (leadingZeros fuel' (Qred (v * 10)))
  end.

(** The [n] with [10^(n-1) <= v < 10^n], for [v > 0]: the number of
    digits of the integer part, or for [v < 1] the position of the first
    digit after the point (no double is below [10^-324]). *)
Definition decimalExponent (v : Q) : Z :=
  if Qle_bool 1 v
  then Z.of_nat (Decimal.nb_digits (N.to_uint (Z.to_N (Qfloor v))))
  else 1 - Z.of_nat (leadingZeros 400 v).

(** The [s] for which [s * 10^(n-k)] rounds to the double and is closest
    to it, the even one of two equally close; none when no multiple of
    [10^(n-k)] rounds to the double.  Only the multiples next to the
    double can round to it. *)
Definition digitsOfLength (i : Rounding.t) (n k : Z) : option Z :=
  let v := Rounding.value i in
  let unit := Qpower 10 (n - k) in
  let s1 := Qfloor (v / unit) in
  let s2 := (s1 + 1)%Z in
  let r1 := inject_Z s1 * unit in
  let r2 := inject_Z s2 * unit in
  match roundsTo i r1, roundsTo i r2 with
  | true, true =>
      if Qlt_bool (v - r1) (r2 - v) then Some s1
      else if Qlt_bool (r2 - v) (v - r1) then Some s2
      else if Z.even s1 then Some s1 else Some s2
  | true, false => Some s1
  | false, true => Some s2
  | false, false => None
  end.

(** The least number of digits [k] with such an [s], and that [s]: 17
    digits identify every double. *)
Fixpoint shortestDigits (fuel : nat) (i : Rounding.t) (n k : Z) : Z * Z :=
  match fuel with
  | O => (0%Z, k)
  | S fuel' =>
      match digitsOfLength i n k with
      | Some s => (s, k)
      | None => shortestDigits fuel' i n (k + 1)
      end
  end.

Definition zeros (j : Z) : string := String.concat "" (repeat "0" (Z.to_nat j)).

Definition decimal (s : Z) : string := NilEmpty.string_of_uint (N.to_uint (Z.to_N s)).

(** The string of the positive finite double [m * 2^e]: its [k] digits
    [s] and the [n] with value [0.s * 10^n], written without an exponent
    when [-6 < n <= 21] and as [d.ddde+x] otherwise.  When the digits
    round up to the next power of ten, [s] is 1 and [n] is one more. *)
Definition Number_toString_finite (m : positive) (e : Z) : string :=
  let i := roundingInterval m e in
  let n0 := decimalExponent (Rounding.value i) in
  let '(s0, k0) := shortestDigits 17 i n0 1 in
  let '(s, k, n) :=
    if (s0 =? 10 ^ k0)%Z then (1, 1, n0 + 1)%Z else (s0, k0, n0) in
  let digits := decimal s in
  if (-6 <? n)%Z && (n <=? 21)%Z then
    if (k <=? n)%Z then digits ++ zeros (n - k)
    else if (0 <? n)%Z then
      substring 0 (Z.to_nat n) digits ++ "."
      ++ substring (Z.to_nat n) (Z.to_nat (k - n)) digits
    else "0." ++ zeros (- n) ++ digits
  else
    let exponent :=
      (if (n - 1 <? 0)%Z then "-" else "+") ++ decimal (Z.abs (n - 1)) in
    if (k =? 1)%Z then digits ++ "e" ++ exponent
    else substring 0 1 digits ++ "."
         ++ substring 1 (Z.to_nat (k - 1)) digits ++ "e" ++ exponent.

(** [num.toString()]. *)
Definition Number_toString (num : float) : string :=
  match Prim2SF num with
  | S754_nan => "NaN"
  | S754_zero _ => "0"
  | S754_infinity false => "Infinity"
  | S754_infinity true => "-Infinity"
  | S754_finite false m e => Number_toString_finite m e
  | S754_finite true m e => "-" ++ Number_toString_finite m e
  end.

(** [str.padStart(targetLength, pad)] for a one-character [pad]. *)
Definition padStart (targetLength : nat) (pad : ascii) (str : string) : string :=
  String.concat "" (repeat (String pad "") (targetLength - String.length str)) ++ str.

(** [formatPageNumber] as [App] passes it:
    [num.toString().padStart(4, '0')]. *)
Definition App_formatPageNumber (num : float) : string :=
  padStart 4 "0"%char (Number_toString num).

Definition App_props : Props.t :=
  Props.mk "http://localhost:8888" "Fizika" 1%float App_formatPageNumber.

(** Page numbers that are integers, one after the other. *)
Fixpoint all_from (P : Z -> bool) (start : Z) (count : nat) : bool :=
  match count with
  | O => true
  | S count' => P start && all_from P (start + 1) count'
  end.

(** Whether the page [k] is printed as its decimal digits. *)
Definition prints_decimal (k : Z) : bool :=
  String.eqb (Number_toString (float_of_Z k)) (NilEmpty.string_of_int (Z.to_int k)).

(** [p * 2^k], as the mantissa of a double is shifted. *)
Definition shl (p : positive) (k : nat) : positive := Nat.iter k xO p.

(** Of the sign [s]: a zero, a finite number or an infinity. *)
Inductive signed (s : bool) : spec_float -> Prop :=
| signed_zero : signed s (S754_zero s)
| signed_finite (m : positive) (e : Z) : signed s (S754_finite s m e)
| signed_infinity : signed s (S754_infinity s).

(** The state of the first render. *)
Definition initialState {num : Type} `{JsNumber num} (props : Props.t) : State.t num :=
  State.mk (Props.initialPageNumber props) None None true None
           (Size.mk (num_lit 0) (num_lit 0)) [] DragMode.None None
           (Point.mk (num_lit 0) (num_lit 0)).

(** ** Pointer handling as the specification words it *)

Section HitTestSpec.
Context {num : Type} `{JsNumber num}.
Local Open Scope js_scope.

(** A handle centred at [c] matches a pointer coordinate [p] when the two
    are at most the fixed tolerance of 8 px apart. *)
Definition spec_near (p c : num) : bool :=
  num_abs (p - c) <=? num_lit 8.

(** The nine tests of one rectangle, in the precedence order of the
    specification: four corners, four edge midpoints, the body. *)
Definition spec_handleTests (x y : num) (r : DraggableRect.t num)
  : list (DragMode.t * bool) :=
  let rx := DraggableRect.x r in
  let ry := DraggableRect.y r in
  let rw := DraggableRect.width r in
  let rh := DraggableRect.height r in
  [ (DragMode.ResizeTopLeft, spec_near x rx && spec_near y ry);
    (DragMode.ResizeTopRight, spec_near x (rx + rw) && spec_near y ry);
    (DragMode.ResizeBottomLeft, spec_near x rx && spec_near y (ry + rh));
    (DragMode.ResizeBottomRight, spec_near x (rx + rw) && spec_near y (ry + rh));
    (DragMode.ResizeTop, spec_near x (rx + rw / num_lit 2) && spec_near y ry);
    (DragMode.ResizeRight, spec_near x (rx + rw) && spec_near y (ry + rh / num_lit 2));
    (DragMode.ResizeBottom, spec_near x (rx + rw / num_lit 2) && spec_near y (ry + rh));
    (DragMode.ResizeLeft, spec_near x rx && spec_near y (ry + rh / num_lit 2));
    (DragMode.Move, (x >=? rx) && (x <=? rx + rw) && (y >=? ry) && (y <=? ry + rh)) ].

(** The first entry whose test holds. *)
Fixpoint spec_firstMatch {A : Type} (tests : list (A * bool)) : option A :=
  match tests with
  | [] => None
  | (a, b) :: tests' => if b then Some a else spec_firstMatch tests'
  end.

Definition spec_hitMode (x y : num) (r : DraggableRect.t num) : option DragMode.t :=
  spec_firstMatch (spec_handleTests x y r).

(** The first rectangle, in list order, one of whose tests holds. *)
Fixpoint spec_hitTest (x y : num) (rects : list (DraggableRect.t num))
  : option (DraggableRect.t num * DragMode.t) :=
  match rects with
  | [] => None
  | r :: rects' =>
      match spec_hitMode x y r with
      | Some m => Some (r, m)
      | None => spec_hitTest x y rects'
      end
  end.

(** The pointer position both handlers compute from the event. *)
Definition pointerAt (rect : DOMRect.t num) (e : MouseEvent.t num) : Point.t num :=
  Point.mk (MouseEvent.clientX e - DOMRect.left rect)
           (MouseEvent.clientY e - DOMRect.top rect).

(** The guard at the top of [handleMouseMove]. *)
Definition dragIdle (s : State.t num) : bool :=
  DragMode.eqb (State.dragMode s) DragMode.None
  || draggedRectId_falsy (State.draggedRectId s).

End HitTestSpec.

(** ** Concrete pages and a concrete backend, for running the model *)

Definition origin_canvas : DOMRect.t number :=
  DOMRect.mk (num_lit 0) (num_lit 0).

Definition text_rect : DraggableRect.t number :=
  DraggableRect.mk "rect-0" (num_lit 10) (num_lit 20) (num_lit 100) (num_lit 50)
                   (VString "grey") "text".

Definition title_rect : DraggableRect.t number :=
  DraggableRect.mk "rect-1" (num_lit 0) (num_lit 0) (num_lit 10) (num_lit 10)
                   (VString "black") "title".

(** Two rectangles on display, no gesture in progress. *)
Definition idle_state : State.t number :=
  setLoading false
    (setRectangles (fun _ => [text_rect; title_rect]) (initialState App_props)).

(** The same page while [rect-1] is dragged in mode [m], the pointer
    having last been seen at the origin. *)
Definition dragging_state (m : DragMode.t) : State.t number :=
  setDraggedRectId (Some "rect-1") (setDragMode m idle_state).

(** The page whose two blocks give [text_rect] and [title_rect]. *)
Definition page_doc : JsonData.t number :=
  JsonData.mk
    [ PageInfo.mk
        (Some [ Block.mk "text" [num_lit 10; num_lit 20; num_lit 110; num_lit 70];
                Block.mk "title" [num_lit 0; num_lit 0; num_lit 10; num_lit 10] ]) ].

(** A page with a single image block. *)
Definition next_doc : JsonData.t number :=
  JsonData.mk
    [ PageInfo.mk
        (Some [ Block.mk "image" [num_lit 5; num_lit 5; num_lit 25; num_lit 45] ]) ].

(** A page entry without a [preproc_blocks] field. *)
Definition blockless_doc : JsonData.t number :=
  JsonData.mk [ PageInfo.mk None ].

(** A backend that answers the two requests for page 1 of [Fizika] with
    the given statuses, the JSON request with [doc]; any other request is
    a network error.  The file name has only unreserved characters, which
    [encodeURIComponent] leaves alone. *)
Definition backend (jsonOk imageOk : bool) (doc : JsonData.t number)
  : Browser.t number :=
  Browser.mk
    (fun url =>
       if String.eqb url "http://localhost:8888/api/get-json-file?fileName=Fizika-0001"
       then inr (Response.mk jsonOk (inr (Some doc)) (inr []))
       else if String.eqb url "http://localhost:8888/api/get-pdf-file?fileName=Fizika-0001"
       then inr (Response.mk imageOk (inl (ErrorObject "Unexpected token"))
                             (inr [Byte.x89; Byte.x50; Byte.x4e; Byte.x47]))
       else inl (ErrorObject "Failed to fetch"))
    (fun str => str)
    (fun _ => "blob:page-1").

(** ** Drawing *)

Definition setImageDimensions {num : Type} (v : Size.t num) (s : State.t num)
  : State.t num :=
  State.mk (State.pageNumber s) (State.imageUrl s) (State.jsonData s)
           (State.loading s) (State.error s) v (State.rectangles s)
           (State.dragMode s) (State.draggedRectId s) (State.lastMousePos s).

(** What [drawRectangles] does to the canvas, in call order: the two
    assignments to the canvas size and the calls and assignments on its
    2d context. *)
Inductive CanvasCmd {num : Type} : Type :=
| SetCanvasWidth (w : num)
| SetCanvasHeight (h : num)
| ClearRect (x y w h : num)
| BeginPath
| PathRect (x y w h : num)
| SetStrokeStyle (c : JsValue)
| SetLineWidth (w : num)
| Stroke
| SetFillStyle (c : JsValue)
| FillRect (x y w h : num).
Arguments CanvasCmd : clear implicits.

(** [canvasRef.current] as [drawRectangles] uses it: [getContext('2d')]
    gives a context or [null]. *)
Module CanvasElement.
Record t : Type := mk { has2dContext : bool }.
End CanvasElement.

Section Drawing.
Context {num : Type} `{JsNumber num}.
Local Open Scope js_scope.

(** The callback of [rectangles.forEach] in [drawRectangles]. *)
Definition drawRect (rect : DraggableRect.t num) : list (CanvasCmd num) :=
  let rx := DraggableRect.x rect in
  let ry := DraggableRect.y rect in
  let rw := DraggableRect.width rect in
  let rh := DraggableRect.height rect in
  let handleSize := num_lit 8 in
  [ BeginPath;
    PathRect rx ry rw rh;
    SetStrokeStyle (DraggableRect.color rect);
    SetLineWidth (num_lit 2);
    Stroke;
    SetFillStyle (DraggableRect.color rect);
    FillRect (rx - handleSize / num_lit 2) (ry - handleSize / num_lit 2)
             handleSize handleSize;
    FillRect (rx + rw - handleSize / num_lit 2) (ry - handleSize / num_lit 2)
             handleSize handleSize;
    FillRect (rx - handleSize / num_lit 2) (ry + rh - handleSize / num_lit 2)
             handleSize handleSize;
    FillRect (rx + rw - handleSize / num_lit 2) (ry + rh - handleSize / num_lit 2)
             handleSize handleSize;
    FillRect (rx + rw / num_lit 2 - handleSize / num_lit 2)
             (ry - handleSize / num_lit 2)
             handleSize handleSize;
    FillRect (rx + rw - handleSize / num_lit 2)
             (ry + rh / num_lit 2 - handleSize / num_lit 2)
             handleSize handleSize;
    FillRect (rx + rw / num_lit 2 - handleSize / num_lit 2)
             (ry + rh - handleSize / num_lit 2)
             handleSize handleSize;
    FillRect (rx - handleSize / num_lit 2)
             (ry + rh / num_lit 2 - handleSize / num_lit 2)
             handleSize handleSize ].

(** [drawRectangles], for the canvas and image elements the two refs
    hold ([None] for an unset ref); the result is what it does to the
    canvas, nothing when it returns early. *)
Definition drawRectangles (canvas : option CanvasElement.t)
    (image : option (Size.t num)) (s : State.t num) : list (CanvasCmd num) :=
  match canvas, State.jsonData s, image with
  | Some cv, Some _, Some img =>
      if negb (CanvasElement.has2dContext cv) then []
      else
        SetCanvasWidth (Size.width img)
        :: SetCanvasHeight (Size.height img)
        :: ClearRect (num_lit 0) (num_lit 0) (Size.width img) (Size.height img)
        :: flat_map drawRect (State.rectangles s)
  | _, _, _ => []
  end.

(** [handleImageLoad]: the new state and what is drawn. *)
Definition handleImageLoad (canvas : option CanvasElement.t)
    (image : option (Size.t num)) (s : State.t num)
  : State.t num * list (CanvasCmd num) :=
  (match image with
   | Some img => setImageDimensions (Size.mk (Size.width img) (Size.height img)) s
   | None => s
   end,
   drawRectangles canvas image s).

(** The centres of the eight handles of a rectangle, with the drag mode
    each one starts. *)
Definition handleCentres (r : DraggableRect.t num)
  : list (DragMode.t * (num * num)) :=
  let rx := DraggableRect.x r in
  let ry := DraggableRect.y r in
  let rw := DraggableRect.width r in
  let rh := DraggableRect.height r in
  [ (DragMode.ResizeTopLeft, (rx, ry));
    (DragMode.ResizeTopRight, (rx + rw, ry));
    (DragMode.ResizeBottomLeft, (rx, ry + rh));
    (DragMode.ResizeBottomRight, (rx + rw, ry + rh));
    (DragMode.ResizeTop, (rx + rw / num_lit 2, ry));
    (DragMode.ResizeRight, (rx + rw, ry + rh / num_lit 2));
    (DragMode.ResizeBottom, (rx + rw / num_lit 2, ry + rh));
    (DragMode.ResizeLeft, (rx, ry + rh / num_lit 2)) ].

(** The square [fillRect] paints for a handle centred at [(cx, cy)]. *)
Definition handleSquare (centre : num * num) : CanvasCmd num :=
  FillRect (fst centre - num_lit 8 / num_lit 2)
           (snd centre - num_lit 8 / num_lit 2)
           (num_lit 8) (num_lit 8).

(** Whether a command is one of the handle squares. *)
Definition isFillRect (c : CanvasCmd num) : bool :=
  match c with
  | FillRect _ _ _ _ => true
  | _ => false
  end.

(** A pointer at [(px, py)] is on the painted area of [fillRect(x, y, w, h)]. *)
Definition onPainted (px py : num) (c : CanvasCmd num) : bool :=
  match c with
  | FillRect x y w h =>
      (px >=? x) && (px <=? x + w) && (py >=? y) && (py <=? y + h)
  | _ => false
  end.

End Drawing.

(** ** Button sizes *)

(** [getRelativeSizes] builds three CSS strings from four numbers; the
    numbers are kept here, in exact arithmetic, with the unit each one
    gets: [buttonWidth] in percent, the others in rem.  [Math.min] and
    [Math.max] give [NaN] as soon as an argument is [NaN]. *)

Definition number_mul : number -> number -> number := number_lift2 Qmult.

Definition number_min (a b : number) : number :=
  match a, b with
  | Some p, Some q => Some (if Qle_bool p q then p else q)
  | _, _ => None
  end.

Definition number_max (a b : number) : number :=
  match a, b with
  | Some p, Some q => Some (if Qle_bool p q then q else p)
  | _, _ => None
  end.

(** The decimal literal [n / 10]. *)
Definition tenths (n : Z) : number := Some (Qred (n # 10)).

Module RelativeSizes.
Record t : Type := mk {
  buttonWidth : number;
  fontSize : number;
  paddingVertical : number;
  paddingHorizontal : number
}.
End RelativeSizes.

Definition getRelativeSizes (s : State.t number) : RelativeSizes.t :=
  let baseWidth : number := num_lit 1000 in
  let scale := num_div (Size.width (State.imageDimensions s)) baseWidth in
  RelativeSizes.mk
    (number_min (num_lit 40) (number_max (num_lit 20) (number_mul (num_lit 30) scale)))
    (number_min (tenths 16) (number_max (num_lit 1) (number_mul (tenths 13) scale)))
    (number_min (tenths 8) (number_max (tenths 4) (number_mul (tenths 6) scale)))
    (number_min (tenths 12) (number_max (tenths 6) (number_mul (tenths 9) scale))).

(** ** Pointer events *)

(** The four pointer handlers the canvas registers; [onMouseLeave] runs
    [handleMouseUp]. *)
Inductive PointerEvent {num : Type} : Type :=
| MouseDown (canvas : option (DOMRect.t num)) (e : MouseEvent.t num)
| MouseMove (canvas : option (DOMRect.t num)) (e : MouseEvent.t num)
| MouseUp
| MouseLeave.
Arguments PointerEvent : clear implicits.

Definition handlePointerEvent {num : Type} `{JsNumber num}
    (s : State.t num) (ev : PointerEvent num) : State.t num :=
  match ev with
  | MouseDown canvas e => handleMouseDown canvas e s
  | MouseMove canvas e => handleMouseMove canvas e s
  | MouseUp => handleMouseUp s
  | MouseLeave => handleMouseUp s
  end.

(** Events are handled one after the other, each on the state the
    previous one left. *)
Definition handlePointerEvents {num : Type} `{JsNumber num}
    (evs : list (PointerEvent num)) (s : State.t num) : State.t num :=
  fold_left handlePointerEvent evs s.

(** What identifies a rectangle apart from its geometry. *)
Definition rect_identity {num : Type} (r : DraggableRect.t num)
  : string * JsValue * string :=
  (DraggableRect.id r, DraggableRect.color r, DraggableRect.type r).

(** The message the [catch] block of [loadFiles] stores for a thrown
    value. *)
Definition caughtMessage (err : Thrown) : string :=
  match err with
  | ErrorObject message => message
  | NonError => "An unknown error occurred"
  end.

(** The JSON half of a load cannot complete: the fetch rejects, the
    status is not a success, or the body does not parse. *)
Definition jsonStageFails {num : Type} (r : Thrown + Response.t num) : bool :=
  match r with
  | inl _ => true
  | inr jsonResponse =>
      negb (Response.ok jsonResponse)
      || match Response.json jsonResponse with
         | inl _ => true
         | inr _ => false
         end
  end.

(** ** Proof steps for exact arithmetic *)

Ltac number_unfold :=
  cbv [spec_near handleSize num_ge num_le num_sub num_add num_div num_lit
       num_abs num_undefined number_JsNumber number_lift2 number_cmp
       number_mul number_min number_max tenths option_map] in *.

Ltac number_arith :=
  repeat match goal with
         | H : Qle_bool _ _ = true |- _ => rewrite Qle_bool_iff in H
         | |- Qle_bool _ _ = true => rewrite Qle_bool_iff
         end;
  rewrite ?Qred_correct in *.

(** Evaluates the reduced form of every literal fraction. *)
Ltac eval_Qred :=
  repeat match goal with
         | |- context [Qred (?n # ?d)] =>
             let v := eval vm_compute in (Qred (n # d)) in
             change (Qred (n # d)) with v in *
         | H : context [Qred (?n # ?d)] |- _ =>
             let v := eval vm_compute in (Qred (n # d)) in
             change (Qred (n # d)) with v in *
         end.

(** * Properties *)

Section HitTestProofs.
Context {num : Type} `{JsNumber num}.
Local Open Scope list_scope.

Lemma spec_firstMatch_first {A : Type} (tests : list (A * bool)) (a : A) :
  spec_firstMatch tests = Some a <->
  exists before after,
    tests = before ++ (a, true) :: after /\
    Forall (fun t => snd t = false) before.
Proof.
  induction tests as [|[a' b] tests IH]; simpl.
  - split; [discriminate|].
    intros (before & after & E & _). destruct before; discriminate.
  - destruct b.
    + split.
      * intros [= ->]. exists [], tests. split; [reflexivity | constructor].
      * intros (before & after & E & F).
        destruct before as [|t before]; simpl in E.
        -- congruence.
        -- inversion E; subst. inversion F; subst. discriminate.
    + rewrite IH. split.
      * intros (before & after & -> & F).
        exists ((a', false) :: before), after. split; [reflexivity|].
        constructor; [reflexivity | assumption].
      * intros (before & after & E & F).
        destruct before as [|t before]; simpl in E; [discriminate|].
        inversion E; subst. inversion F; subst.
        exists before, after. split; [reflexivity | assumption].
Qed.

Lemma spec_hitTest_first (x y : num) (rects : list (DraggableRect.t num))
    (r : DraggableRect.t num) (m : DragMode.t) :
  spec_hitTest x y rects = Some (r, m) ->
  exists before after,
    rects = before ++ r :: after /\
    Forall (fun r' => spec_hitMode x y r' = None) before /\
    spec_hitMode x y r = Some m.
Proof.
  induction rects as [|r0 rects IH]; simpl; [discriminate|].
  destruct (spec_hitMode x y r0) as [m0|] eqn:E0.
  - intros [= -> ->]. exists [], rects. repeat split; [constructor | assumption].
  - intros Hm. destruct (IH Hm) as (before & after & -> & F & Hr).
    exists (r0 :: before), after. repeat split; [constructor|]; assumption.
Qed.

Lemma spec_hitTest_none (x y : num) (rects : list (DraggableRect.t num)) :
  spec_hitTest x y rects = None <->
  Forall (fun r' => spec_hitMode x y r' = None) rects.
Proof.
  induction rects as [|r0 rects IH]; simpl.
  - split; [constructor | reflexivity].
  - destruct (spec_hitMode x y r0) eqn:E0.
    + split; [discriminate|]. intros F. inversion F; subst. congruence.
    + rewrite IH. split.
      * intros F. constructor; assumption.
      * intros F. now inversion F.
Qed.

(** The [find] callback is the precedence list read top to bottom. *)
Lemma hitCallback_spec (x y : num) (r : DraggableRect.t num) (s : State.t num) :
  hitCallback x y r s =
  match spec_hitMode x y r with
  | Some m => (true, setDragMode m s)
  | None => (false, s)
  end.
Proof.
  unfold hitCallback, spec_hitMode, spec_handleTests, spec_near, handleSize.
  cbn [spec_firstMatch].
  repeat match goal with
         | |- context [if ?b then _ else _] => destruct b
         end; reflexivity.
Qed.

Lemma setDragMode_rectangles (m : DragMode.t) (s : State.t num) :
  State.rectangles (setDragMode m s) = State.rectangles s.
Proof. reflexivity. Qed.

Lemma array_find_hitCallback (x y : num) (rects : list (DraggableRect.t num))
    (s : State.t num) :
  array_find (hitCallback x y) rects s =
  match spec_hitTest x y rects with
  | Some (r, m) => (Some r, setDragMode m s)
  | None => (None, s)
  end.
Proof.
  induction rects as [|r0 rects IH]; simpl; [reflexivity|].
  rewrite hitCallback_spec.
  destruct (spec_hitMode x y r0); [reflexivity | apply IH].
Qed.

End HitTestProofs.

Section PointerDown.
Context {num : Type} `{JsNumber num}.
Local Open Scope list_scope.

(** C2.  A pointer-down on the mounted canvas is the precedence search of
    the specification: rectangles are tried in list order and, within a
    rectangle, the four corner handles, then the four edge-midpoint
    handles, then the body, each handle with the fixed tolerance of 8 px
    ([spec_near]).  When something matches, the drag mode, the dragged id
    and the last pointer position are set from the first matching
    rectangle and from the first test of the precedence list that holds
    for it, so every test listed before the chosen mode fails and every
    rectangle listed before the chosen one matches nothing; two handles
    that both contain the pointer resolve to the one listed first.  When
    nothing matches the state is left alone. *)
Theorem handleMouseDown_precedence
    (rect : DOMRect.t num) (e : MouseEvent.t num) (s : State.t num) :
  let p := pointerAt rect e in
  let hit := spec_hitTest (Point.x p) (Point.y p) (State.rectangles s) in
  handleMouseDown (Some rect) e s =
    match hit with
    | Some (r, m) =>
        setLastMousePos p
          (setDraggedRectId (Some (DraggableRect.id r)) (setDragMode m s))
    | None => s
    end
  /\ match hit with
     | Some (r, m) =>
         exists before after tests_before tests_after,
           State.rectangles s = before ++ r :: after /\
           Forall (fun r' => spec_hitMode (Point.x p) (Point.y p) r' = None) before /\
           spec_handleTests (Point.x p) (Point.y p) r
             = tests_before ++ (m, true) :: tests_after /\
           Forall (fun t => snd t = false) tests_before
     | None =>
         Forall (fun r' => spec_hitMode (Point.x p) (Point.y p) r' = None)
                (State.rectangles s)
     end
  /\ (let modes r := map fst (spec_handleTests (Point.x p) (Point.y p) r) in
      Forall (fun r => modes r =
                [ DragMode.ResizeTopLeft; DragMode.ResizeTopRight;
                  DragMode.ResizeBottomLeft; DragMode.ResizeBottomRight;
                  DragMode.ResizeTop; DragMode.ResizeRight;
                  DragMode.ResizeBottom; DragMode.ResizeLeft;
                  DragMode.Move ])
             (State.rectangles s)).
Proof.
  intros p hit. repeat split.
  - unfold handleMouseDown. fold (pointerAt rect e).
    change (MouseEvent.clientX e - DOMRect.left rect)%js with (Point.x p).
    change (MouseEvent.clientY e - DOMRect.top rect)%js with (Point.y p).
    rewrite array_find_hitCallback. fold hit.
    destruct hit as [[r m]|]; reflexivity.
  - destruct hit as [[r m]|] eqn:Hhit; subst hit.
    + destruct (spec_hitTest_first _ _ _ _ _ Hhit) as (before & after & E & F & Hm).
      apply spec_firstMatch_first in Hm.
      destruct Hm as (tb & ta & Et & Ft).
      exists before, after, tb, ta. auto.
    + now apply spec_hitTest_none.
  - apply Forall_forall. intros r _. reflexivity.
Qed.

End PointerDown.

(** Overlapping handles on a 10 x 10 rectangle: the pointer at its
    top-left corner is within 8 px of every handle and inside the body;
    the first-listed mode, the top-left corner, is chosen.  A second
    rectangle at the same place is never reached. *)
Example handleMouseDown_overlapping_handles :
  let r0 : DraggableRect.t number :=
    DraggableRect.mk "rect-0" (num_lit 0) (num_lit 0) (num_lit 10) (num_lit 10)
                     (VString "grey") "text" in
  let r1 : DraggableRect.t number :=
    DraggableRect.mk "rect-1" (num_lit 3) (num_lit 3) (num_lit 100) (num_lit 100)
                     (VString "black") "title" in
  let s := setRectangles (fun _ => [r0; r1]) (initialState App_props) in
  let s' := handleMouseDown (Some (DOMRect.mk (num_lit 0) (num_lit 0)))
                            (MouseEvent.mk (num_lit 4) (num_lit 4)) s in
  map snd (spec_handleTests (num_lit 4) (num_lit 4) r0)
    = [true; true; true; true; true; true; true; true; true]
  /\ spec_hitMode (num_lit 4) (num_lit 4) r1 = Some DragMode.ResizeTopLeft
  /\ State.dragMode s' = DragMode.ResizeTopLeft
  /\ State.draggedRectId s' = Some "rect-0"
  /\ State.lastMousePos s' = Point.mk (num_lit 4) (num_lit 4).
Proof. vm_compute. repeat split. Qed.

(** Pointer on the middle of the right edge of a large rectangle: no
    corner is near, the right-edge handle is, and so is the body; the
    edge handle wins over the body. *)
Example handleMouseDown_edge_before_body :
  let r0 : DraggableRect.t number :=
    DraggableRect.mk "rect-0" (num_lit 10) (num_lit 20) (num_lit 100) (num_lit 50)
                     (VString "grey") "text" in
  let s := setRectangles (fun _ => [r0]) (initialState App_props) in
  let s' := handleMouseDown (Some (DOMRect.mk (num_lit 0) (num_lit 0)))
                            (MouseEvent.mk (num_lit 108) (num_lit 45)) s in
  map snd (spec_handleTests (num_lit 108) (num_lit 45) r0)
    = [false; false; false; false; false; true; false; false; true]
  /\ State.dragMode s' = DragMode.ResizeRight.
Proof. vm_compute. repeat split. Qed.

Section PointerMove.
Context {num : Type} `{JsNumber num}.
Local Open Scope list_scope.

Lemma handleMouseMove_idle (canvas : option (DOMRect.t num))
    (e : MouseEvent.t num) (s : State.t num) :
  dragIdle s = true -> handleMouseMove canvas e s = s.
Proof.
  unfold dragIdle, handleMouseMove. intros ->. reflexivity.
Qed.

Lemma handleMouseMove_dragging (rect : DOMRect.t num) (e : MouseEvent.t num)
    (s : State.t num) (d : string) :
  DragMode.eqb (State.dragMode s) DragMode.None = false ->
  State.draggedRectId s = Some d ->
  draggedRectId_falsy (Some d) = false ->
  let p := pointerAt rect e in
  let dx := (Point.x p - Point.x (State.lastMousePos s))%js in
  let dy := (Point.y p - Point.y (State.lastMousePos s))%js in
  handleMouseMove (Some rect) e s =
  setLastMousePos p
    (setRectangles (map (dragCallback (State.dragMode s) d dx dy)) s).
Proof.
  intros Hmode Hid Hd. unfold handleMouseMove.
  rewrite Hmode, Hid, Hd. reflexivity.
Qed.

Lemma dragCallback_dragged (m : DragMode.t) (d : string) (dx dy : num)
    (r : DraggableRect.t num) :
  DraggableRect.id r = d -> dragCallback m d dx dy r = applyDrag m dx dy r.
Proof.
  intros <-. unfold dragCallback. now rewrite String.eqb_refl.
Qed.

Lemma dragCallback_other (m : DragMode.t) (d : string) (dx dy : num)
    (r : DraggableRect.t num) :
  DraggableRect.id r <> d -> dragCallback m d dx dy r = r.
Proof.
  intros Hne. unfold dragCallback.
  destruct (String.eqb_spec (DraggableRect.id r) d); [contradiction | reflexivity].
Qed.

(** C3, as the code has it.  On the mounted canvas the stored last-pointer
    position becomes the current pointer position exactly when a drag is
    active (the mode is not [None] and a non-empty rectangle id is
    selected); with no active drag the handler returns at its guard and
    the whole state, the last-pointer position included, stays as it
    was. *)
Theorem handleMouseMove_lastMousePos
    (rect : DOMRect.t num) (e : MouseEvent.t num) (s : State.t num) :
  State.lastMousePos (handleMouseMove (Some rect) e s)
    = (if dragIdle s then State.lastMousePos s else pointerAt rect e)
  /\ (if dragIdle s then handleMouseMove (Some rect) e s = s else True).
Proof.
  destruct (dragIdle s) eqn:Hidle.
  - rewrite handleMouseMove_idle by assumption. split; reflexivity.
  - split; [|exact I].
    unfold handleMouseMove. fold (dragIdle s). rewrite Hidle. reflexivity.
Qed.

(** C5.  During a resize-top-left drag of rectangle [d] with pointer
    delta [(dx, dy)], every rectangle carrying that id gets [x + dx],
    [y + dy], [width - dx] and [height - dy], nothing else of it changes
    and the results are stored as computed, without clamping; this is the
    top-edge update composed with the left-edge update. *)
Theorem handleMouseMove_resize_top_left
    (rect : DOMRect.t num) (e : MouseEvent.t num) (s : State.t num) (d : string) :
  State.dragMode s = DragMode.ResizeTopLeft ->
  State.draggedRectId s = Some d ->
  draggedRectId_falsy (Some d) = false ->
  let p := pointerAt rect e in
  let dx := (Point.x p - Point.x (State.lastMousePos s))%js in
  let dy := (Point.y p - Point.y (State.lastMousePos s))%js in
  let s' := handleMouseMove (Some rect) e s in
  List.length (State.rectangles s') = List.length (State.rectangles s)
  /\ (forall i r,
        nth_error (State.rectangles s) i = Some r ->
        DraggableRect.id r = d ->
        nth_error (State.rectangles s') i =
          Some (DraggableRect.mk
                  (DraggableRect.id r)
                  (DraggableRect.x r + dx)%js
                  (DraggableRect.y r + dy)%js
                  (DraggableRect.width r - dx)%js
                  (DraggableRect.height r - dy)%js
                  (DraggableRect.color r)
                  (DraggableRect.type r)))
  /\ (forall r,
        applyDrag DragMode.ResizeTopLeft dx dy r =
        applyDrag DragMode.ResizeTop dx dy (applyDrag DragMode.ResizeLeft dx dy r)).
Proof.
  intros Hmode Hid Hd p dx dy s'. subst s'.
  rewrite (handleMouseMove_dragging rect e s d) by (rewrite ?Hmode; auto).
  fold p dx dy. rewrite Hmode. cbn [State.rectangles setLastMousePos setRectangles].
  repeat split.
  - apply length_map.
  - intros i r Hi Hr.
    rewrite (map_nth_error _ _ _ Hi), dragCallback_dragged by assumption.
    reflexivity.
Qed.

(** C6.  During a move drag of rectangle [d] with pointer delta
    [(dx, dy)], every rectangle carrying that id gets [x + dx] and
    [y + dy] and keeps its width, height, id, colour and type; every
    rectangle with another id is the same as before, at the same place in
    the list. *)
Theorem handleMouseMove_move
    (rect : DOMRect.t num) (e : MouseEvent.t num) (s : State.t num) (d : string) :
  State.dragMode s = DragMode.Move ->
  State.draggedRectId s = Some d ->
  draggedRectId_falsy (Some d) = false ->
  let p := pointerAt rect e in
  let dx := (Point.x p - Point.x (State.lastMousePos s))%js in
  let dy := (Point.y p - Point.y (State.lastMousePos s))%js in
  let s' := handleMouseMove (Some rect) e s in
  List.length (State.rectangles s') = List.length (State.rectangles s)
  /\ (forall i r,
        nth_error (State.rectangles s) i = Some r ->
        DraggableRect.id r = d ->
        nth_error (State.rectangles s') i =
          Some (DraggableRect.mk
                  (DraggableRect.id r)
                  (DraggableRect.x r + dx)%js
                  (DraggableRect.y r + dy)%js
                  (DraggableRect.width r)
                  (DraggableRect.height r)
                  (DraggableRect.color r)
                  (DraggableRect.type r)))
  /\ (forall i r,
        nth_error (State.rectangles s) i = Some r ->
        DraggableRect.id r <> d ->
        nth_error (State.rectangles s') i = Some r).
Proof.
  intros Hmode Hid Hd p dx dy s'. subst s'.
  rewrite (handleMouseMove_dragging rect e s d) by (rewrite ?Hmode; auto).
  fold p dx dy. rewrite Hmode. cbn [State.rectangles setLastMousePos setRectangles].
  repeat split.
  - apply length_map.
  - intros i r Hi Hr.
    rewrite (map_nth_error _ _ _ Hi), dragCallback_dragged by assumption.
    reflexivity.
  - intros i r Hi Hr.
    rewrite (map_nth_error _ _ _ Hi), dragCallback_other by assumption.
    reflexivity.
Qed.

End PointerMove.

(** C3 fails as stated: with no drag in progress a pointer-move to
    [(5, 5)] leaves the stored last-pointer position at [(0, 0)]. *)
Lemma handleMouseMove_idle_keeps_lastMousePos :
  State.lastMousePos
    (handleMouseMove (Some origin_canvas)
                     (MouseEvent.mk (num_lit 5) (num_lit 5)) idle_state)
  <> pointerAt origin_canvas (MouseEvent.mk (num_lit 5) (num_lit 5)).
Proof. vm_compute. discriminate. Qed.

(** During a drag the position is tracked. *)
Example handleMouseMove_dragging_tracks_pointer :
  State.lastMousePos
    (handleMouseMove (Some origin_canvas)
                     (MouseEvent.mk (num_lit 5) (num_lit 5))
                     (dragging_state DragMode.Move))
  = Point.mk (num_lit 5) (num_lit 5).
Proof. vm_compute. reflexivity. Qed.

(** Dragging the top-left corner of the 10 x 10 title rectangle by
    [(30, 4)] moves it to [(30, 4)] and leaves it [-20] wide and [6]
    high: the negative width is stored as it is. *)
Lemma handleMouseMove_resize_top_left_witness :
  State.dragMode (dragging_state DragMode.ResizeTopLeft) = DragMode.ResizeTopLeft
  /\ State.draggedRectId (dragging_state DragMode.ResizeTopLeft) = Some "rect-1"
  /\ draggedRectId_falsy (Some "rect-1") = false
  /\ nth_error
       (State.rectangles
          (handleMouseMove (Some origin_canvas)
                           (MouseEvent.mk (num_lit 30) (num_lit 4))
                           (dragging_state DragMode.ResizeTopLeft))) 1
     = Some (DraggableRect.mk "rect-1" (num_lit 30) (num_lit 4)
                              (num_lit (-20)) (num_lit 6)
                              (VString "black") "title").
Proof.
  split; [reflexivity|]. split; [reflexivity|]. split; [reflexivity|].
  destruct (handleMouseMove_resize_top_left
              origin_canvas (MouseEvent.mk (num_lit 30) (num_lit 4))
              (dragging_state DragMode.ResizeTopLeft) "rect-1"
              eq_refl eq_refl eq_refl) as (_ & Hdragged & _).
  exact (Hdragged 1%nat title_rect eq_refl eq_refl).
Defined.

(** Moving the title rectangle by [(7, -3)]: it lands at [(7, -3)] with
    its 10 x 10 size, and the text rectangle before it is untouched. *)
Lemma handleMouseMove_move_witness :
  State.dragMode (dragging_state DragMode.Move) = DragMode.Move
  /\ State.draggedRectId (dragging_state DragMode.Move) = Some "rect-1"
  /\ draggedRectId_falsy (Some "rect-1") = false
  /\ State.rectangles
       (handleMouseMove (Some origin_canvas)
                        (MouseEvent.mk (num_lit 7) (num_lit (-3)))
                        (dragging_state DragMode.Move))
     = [ text_rect;
         DraggableRect.mk "rect-1" (num_lit 7) (num_lit (-3))
                          (num_lit 10) (num_lit 10) (VString "black") "title" ].
Proof.
  split; [reflexivity|]. split; [reflexivity|]. split; [reflexivity|].
  destruct (handleMouseMove_move
              origin_canvas (MouseEvent.mk (num_lit 7) (num_lit (-3)))
              (dragging_state DragMode.Move) "rect-1"
              eq_refl eq_refl eq_refl) as (Hlen & Hdragged & Hother).
  pose proof (Hdragged 1%nat title_rect eq_refl eq_refl) as H1.
  assert (DraggableRect.id text_rect <> "rect-1") as Hne by discriminate.
  pose proof (Hother 0%nat text_rect eq_refl Hne) as H0.
  destruct (State.rectangles _) as [|a [|b [|c l]]]; try discriminate Hlen.
  simpl in H0, H1. injection H0 as ->. injection H1 as ->. reflexivity.
Defined.

(** * Integers in binary64

    What the page handlers compute on doubles, from the specification of
    the primitive operations ([SpecFloat]): a positive integer below
    [2^53] is held exactly, with its bits shifted up to 53, and adding or
    subtracting 1 is then exact. *)

Section Binary64.
Local Open Scope Z_scope.

Lemma Pos_iter_shl (p k : positive) : Pos.iter xO p k = shl p (Pos.to_nat k).
Proof. unfold shl. rewrite Pos2Nat.inj_iter. reflexivity. Qed.

Lemma shl_Z (p : positive) (k : nat) : Zpos (shl p k) = Zpos p * 2 ^ Z.of_nat k.
Proof.
  induction k as [|k IH].
  - cbn. lia.
  - change (shl p (S k)) with (xO (shl p k)).
    rewrite Pos2Z.inj_xO, IH, Nat2Z.inj_succ, Z.pow_succ_r by lia. lia.
Qed.

Lemma shl_add (p : positive) (j k : nat) : shl (shl p j) k = shl p (k + j).
Proof. unfold shl. now rewrite Nat.iter_add. Qed.

Lemma digits_shl (p : positive) (k : nat) :
  Zpos (digits2_pos (shl p k)) = Zpos (digits2_pos p) + Z.of_nat k.
Proof.
  induction k as [|k IH].
  - cbn. lia.
  - change (shl p (S k)) with (xO (shl p k)). cbn [digits2_pos].
    rewrite Pos2Z.inj_succ, IH. lia.
Qed.

Lemma iter_pos_nat {A : Type} (f : A -> A) (p : positive) (x : A) :
  iter_pos f p x = Nat.iter (Pos.to_nat p) f x.
Proof.
  revert x. induction p as [p IH|p IH|]; intros x; cbn [iter_pos].
  - rewrite !IH, Pos2Nat.inj_xI.
    replace (S (2 * Pos.to_nat p))%nat with (Pos.to_nat p + (Pos.to_nat p + 1))%nat by lia.
    rewrite !Nat.iter_add. reflexivity.
  - rewrite !IH, Pos2Nat.inj_xO.
    replace (2 * Pos.to_nat p)%nat with (Pos.to_nat p + Pos.to_nat p)%nat by lia.
    rewrite Nat.iter_add. reflexivity.
  - reflexivity.
Qed.

Lemma shr_1_iter (k j : nat) (p : positive) :
  Nat.iter k shr_1 (Build_shr_record (Zpos (shl p (k + j))) false false)
  = Build_shr_record (Zpos (shl p j)) false false.
Proof.
  revert j. induction k as [|k IH]; intros j; [reflexivity|].
  rewrite Nat.iter_succ. replace (S k + j)%nat with (k + S j)%nat by lia.
  rewrite IH. reflexivity.
Qed.

Lemma shr_exact (m : positive) (c : nat) (e : Z) :
  shr (Build_shr_record (Zpos (shl m c)) false false) e (Z.of_nat c)
  = (Build_shr_record (Zpos m) false false, e + Z.of_nat c).
Proof.
  destruct c as [|c].
  - cbn. f_equal. lia.
  - unfold shr. cbn [Z.of_nat].
    rewrite iter_pos_nat, SuccNat2Pos.id_succ.
    replace (S c) with (S c + 0)%nat at 2 by lia.
    rewrite shr_1_iter. reflexivity.
Qed.

Lemma fexp_large (x : Z) : -1074 <= x - 53 -> fexp prec emax x = x - 53.
Proof. unfold fexp. change (SpecFloat.emin prec emax) with (-1074). change prec with 53. lia. Qed.

(** A mantissa of 53 bits followed by [c] zero bits rounds to itself. *)
Lemma binary_round_aux_exact (s : bool) (m : positive) (c : nat) (e : Z) :
  Zpos (digits2_pos m) = 53 ->
  -1074 <= e + Z.of_nat c <= 971 ->
  binary_round_aux prec emax s (Zpos (shl m c)) e loc_Exact
  = S754_finite s m (e + Z.of_nat c).
Proof.
  intros Hd He. unfold binary_round_aux, shr_fexp.
  cbn [Zdigits2 shr_record_of_loc].
  rewrite digits_shl, Hd.
  rewrite fexp_large by lia.
  replace (53 + Z.of_nat c + e - 53 - e) with (Z.of_nat c) by lia.
  rewrite shr_exact.
  cbn [shr_m loc_of_shr_record round_nearest_even Zdigits2 shr_record_of_loc].
  rewrite Hd, fexp_large by lia.
  replace (53 + (e + Z.of_nat c) - 53 - (e + Z.of_nat c)) with 0 by lia.
  cbn [shr shr_m]. change (emax - prec) with 971.
  destruct (Z.leb_spec (e + Z.of_nat c) 971); [reflexivity | lia].
Qed.

Lemma binary_round_shl (s : bool) (p : positive) (c : nat) (e : Z) :
  Zpos (digits2_pos p) <= 53 ->
  -1074 <= e + Z.of_nat c + Zpos (digits2_pos p) - 53 <= 971 ->
  binary_round prec emax s (shl p c) e
  = S754_finite s (shl p (Z.to_nat (53 - Zpos (digits2_pos p))))
                (e + Z.of_nat c + Zpos (digits2_pos p) - 53).
Proof.
  intros Hd He. unfold binary_round.
  rewrite digits_shl, fexp_large by lia.
  set (d := Zpos (digits2_pos p)) in *.
  set (m := shl p (Z.to_nat (53 - d))).
  assert (Zpos (digits2_pos m) = 53) as Hm.
  { unfold m. rewrite digits_shl. fold d. lia. }
  unfold shl_align.
  destruct (d + Z.of_nat c + e - 53 - e) as [|t|k] eqn:Et.
  - replace (shl p c) with (shl m 0).
    + rewrite (binary_round_aux_exact s m 0 _ Hm) by (cbn [Z.of_nat]; lia).
      f_equal. cbn [Z.of_nat]. lia.
    + unfold m. rewrite shl_add. f_equal. lia.
  - replace (shl p c) with (shl m (Pos.to_nat t)).
    + rewrite (binary_round_aux_exact s m _ _ Hm) by lia. f_equal. lia.
    + unfold m. rewrite shl_add. f_equal. lia.
  - rewrite Pos_iter_shl, shl_add.
    replace (shl p (Pos.to_nat k + c)) with (shl m 0).
    + rewrite (binary_round_aux_exact s m 0 _ Hm) by (cbn [Z.of_nat]; lia).
      f_equal. cbn [Z.of_nat]. lia.
    + unfold m. rewrite shl_add. f_equal. lia.
Qed.

Lemma digits2_pos_size (p : positive) : digits2_pos p = Pos.size p.
Proof. induction p; cbn; congruence. Qed.

Lemma digits_bound (p : positive) (k : Z) :
  0 <= k -> Zpos p < 2 ^ k -> Zpos (digits2_pos p) <= k.
Proof.
  intros Hk Hp. rewrite digits2_pos_size.
  pose proof (Pos.size_le p) as Hs.
  apply Pos2Z.pos_le_pos in Hs. rewrite Pos2Z.inj_pow in Hs.
  change (Z.pos 2) with 2 in Hs. rewrite (Pos2Z.inj_xO p) in Hs.
  destruct (Z.le_gt_cases (Zpos (Pos.size p)) k) as [|Hgt]; [assumption|].
  assert (2 ^ (k + 1) <= 2 ^ Zpos (Pos.size p)) as Hpow
      by (apply Z.pow_le_mono_r; lia).
  rewrite Z.pow_add_r, Z.pow_1_r in Hpow by lia. lia.
Qed.

Lemma to_Z_of_Z (n : Z) : 0 <= n < 2 ^ 63 -> Uint63.to_Z (Uint63.of_Z n) = n.
Proof. intros Hn. rewrite of_Z_spec. apply Z.mod_small. exact Hn. Qed.

(** The double that holds the positive integer [p], for [p] below [2^53]. *)
Lemma Prim2SF_float_of_Z (p : positive) :
  Zpos p < 2 ^ 53 ->
  Prim2SF (float_of_Z (Zpos p))
  = S754_finite false (shl p (Z.to_nat (53 - Zpos (digits2_pos p))))
                (Zpos (digits2_pos p) - 53).
Proof.
  intros Hp. unfold float_of_Z. cbn [Z.ltb Z.compare].
  rewrite of_uint63_spec, to_Z_of_Z by lia.
  cbn [binary_normalize].
  pose proof (digits_bound p 53 ltac:(lia) Hp) as Hd.
  change (binary_round prec emax false p 0) with (binary_round prec emax false (shl p 0) 0).
  rewrite binary_round_shl by (cbn [Z.of_nat]; lia).
  reflexivity.
Qed.

Lemma shl_pos_add (p q : positive) (k : nat) :
  (shl p k + shl q k)%positive = shl (p + q) k.
Proof.
  apply Pos2Z.inj. rewrite Pos2Z.inj_add, !shl_Z, Pos2Z.inj_add. lia.
Qed.

Lemma shl_align_shl (m : positive) (ex ez : Z) :
  ez <= ex -> fst (shl_align m ex ez) = shl m (Z.to_nat (ex - ez)).
Proof.
  intros Hle. unfold shl_align. destruct (ez - ex) as [|d|d] eqn:E.
  - replace (ex - ez) with 0 by lia. reflexivity.
  - lia.
  - cbn [fst]. rewrite Pos_iter_shl. f_equal. lia.
Qed.

Lemma Prim2SF_one : Prim2SF 1 = S754_finite false (shl 1 52) (-52).
Proof. reflexivity. Qed.

Lemma Prim2SF_zero : Prim2SF 0 = S754_zero false.
Proof. reflexivity. Qed.

Lemma digits2_pos_pos (p : positive) : 1 <= Zpos (digits2_pos p).
Proof. lia. Qed.

Lemma aligned_with_one (p : positive) :
  Zpos p < 2 ^ 53 ->
  fst (shl_align (shl p (Z.to_nat (53 - Zpos (digits2_pos p))))
                 (Zpos (digits2_pos p) - 53)
                 (Z.min (Zpos (digits2_pos p) - 53) (-52)))
  = shl p 52
  /\ fst (shl_align (shl 1 52) (-52) (Z.min (Zpos (digits2_pos p) - 53) (-52)))
     = shl 1 52
  /\ Z.min (Zpos (digits2_pos p) - 53) (-52) = -52.
Proof.
  intros Hp.
  pose proof (digits_bound p 53 ltac:(lia) Hp) as Hd.
  pose proof (digits2_pos_pos p) as Hd1.
  assert (Z.min (Zpos (digits2_pos p) - 53) (-52) = -52) as -> by lia.
  rewrite !shl_align_shl by lia. rewrite shl_add.
  repeat split.
  f_equal. lia.
Qed.

Lemma float_of_Z_succ_pos (p : positive) :
  Zpos (p + 1) < 2 ^ 53 ->
  (float_of_Z (Zpos p) + 1)%float = float_of_Z (Zpos (p + 1)).
Proof.
  intros Hp. apply Prim2SF_inj. rewrite add_spec.
  rewrite !Prim2SF_float_of_Z by lia. rewrite Prim2SF_one.
  unfold SF64add, SFadd. cbv zeta.
  destruct (aligned_with_one p ltac:(lia)) as (-> & -> & ->).
  cbn [cond_Zopp].
  change (Zpos (shl p 52) + Zpos (shl 1 52)) with (Zpos (shl p 52 + shl 1 52)).
  rewrite shl_pos_add. cbn [binary_normalize].
  pose proof (digits_bound (p + 1) 53 ltac:(lia) Hp) as Hd.
  pose proof (digits2_pos_pos (p + 1)) as Hd1.
  rewrite binary_round_shl by (cbn [Z.of_nat]; lia).
  reflexivity.
Qed.

Lemma float_of_Z_pred_pos (p : positive) :
  Zpos (p + 1) < 2 ^ 53 ->
  (float_of_Z (Zpos (p + 1)) - 1)%float = float_of_Z (Zpos p).
Proof.
  intros Hp. apply Prim2SF_inj. rewrite sub_spec.
  rewrite !Prim2SF_float_of_Z by lia. rewrite Prim2SF_one.
  unfold SF64sub, SFsub. cbv zeta.
  destruct (aligned_with_one (p + 1) Hp) as (-> & -> & ->).
  cbn [cond_Zopp].
  replace (Zpos (shl (p + 1) 52) - Zpos (shl 1 52)) with (Zpos (shl p 52))
    by (rewrite !shl_Z, Pos2Z.inj_add; lia).
  cbn [binary_normalize].
  pose proof (digits_bound p 53 ltac:(lia) ltac:(lia)) as Hd.
  pose proof (digits2_pos_pos p) as Hd1.
  rewrite binary_round_shl by (cbn [Z.of_nat]; lia).
  reflexivity.
Qed.

(** Adding 1 is exact on the integers below [2^53]. *)
Lemma float_of_Z_succ (n : Z) :
  0 <= n < 2 ^ 53 -> (float_of_Z n + 1)%float = float_of_Z (n + 1).
Proof.
  intros Hn. destruct n as [|p|p]; [reflexivity| |lia].
  change (Zpos p + 1) with (Zpos (p + 1)).
  destruct (Z.eq_dec (Zpos (p + 1)) (2 ^ 53)) as [E|E].
  - assert (p = 9007199254740991%positive) as -> by lia. reflexivity.
  - apply float_of_Z_succ_pos. lia.
Qed.

(** Subtracting 1 is exact on the integers from 1 to [2^53]. *)
Lemma float_of_Z_pred (n : Z) :
  1 <= n <= 2 ^ 53 -> (float_of_Z n - 1)%float = float_of_Z (n - 1).
Proof.
  intros Hn. destruct n as [|p|p]; [lia| |lia].
  destruct (Pos.eq_dec p 1) as [->|H1]; [reflexivity|].
  destruct (Z.eq_dec (Zpos p) (2 ^ 53)) as [E|E].
  - assert (p = 9007199254740992%positive) as -> by lia. reflexivity.
  - replace p with (Pos.pred p + 1)%positive at 1 by lia.
    replace (Zpos p - 1) with (Zpos (Pos.pred p)) by lia.
    apply float_of_Z_pred_pos. lia.
Qed.

(** What rounding returns. *)

Lemma shr_1_nonneg (mrs : shr_record) : 0 <= shr_m mrs -> 0 <= shr_m (shr_1 mrs).
Proof.
  destruct mrs as [m r s]. destruct m as [|[p|p|]|[p|p|]]; cbn; lia.
Qed.

Lemma shr_nonneg (mrs : shr_record) (e n : Z) :
  0 <= shr_m mrs -> 0 <= shr_m (fst (shr mrs e n)).
Proof.
  intros Hm. unfold shr. destruct n as [|p|p]; cbn [fst]; try assumption.
  rewrite iter_pos_nat. induction (Pos.to_nat p) as [|k IH]; [assumption|].
  rewrite Nat.iter_succ. now apply shr_1_nonneg.
Qed.

Lemma shr_fexp_nonneg (m e : Z) (l : location) :
  0 <= m -> 0 <= shr_m (fst (shr_fexp prec emax m e l)).
Proof.
  intros Hm. unfold shr_fexp. apply shr_nonneg.
  destruct l as [|[]]; cbn; assumption.
Qed.

Lemma round_nearest_even_nonneg (m : Z) (l : location) :
  0 <= m -> 0 <= round_nearest_even m l.
Proof.
  intros Hm. destruct l as [|[]]; cbn [round_nearest_even]; try lia.
  destruct (Z.even m); lia.
Qed.

(** Rounding a magnitude gives a zero, a finite number or an infinity of
    the sign asked for. *)
Lemma binary_round_aux_signed (s : bool) (m e : Z) (l : location) :
  0 <= m -> signed s (binary_round_aux prec emax s m e l).
Proof.
  intros Hm. unfold binary_round_aux.
  pose proof (shr_fexp_nonneg m e l Hm) as H1.
  destruct (shr_fexp prec emax m e l) as [mrs' e']. cbn [fst] in H1.
  pose proof (shr_fexp_nonneg _ e' loc_Exact
                (round_nearest_even_nonneg _ (loc_of_shr_record mrs') H1)) as H2.
  destruct (shr_fexp prec emax _ e' loc_Exact) as [mrs'' e'']. cbn [fst] in H2.
  destruct (shr_m mrs'') as [|p|p]; [constructor| |lia].
  destruct (e'' <=? emax - prec); constructor.
Qed.

Lemma binary_round_signed (s : bool) (m : positive) (e : Z) :
  signed s (binary_round prec emax s m e).
Proof.
  unfold binary_round. destruct (shl_align m e _) as [mz ez].
  apply binary_round_aux_signed. lia.
Qed.

(** Comparisons. *)

Lemma is_nan_Prim2SF (x : float) :
  is_nan x = match Prim2SF x with S754_nan => true | _ => false end.
Proof.
  unfold is_nan. rewrite eqb_spec. unfold SFeqb.
  destruct (Prim2SF x) as [[]|[]| |[] m e]; cbn; try reflexivity;
    rewrite Z.compare_refl, Pos.compare_cont_refl; reflexivity.
Qed.

Lemma signed_not_nan (s : bool) (x : float) : signed s (Prim2SF x) -> is_nan x = false.
Proof. rewrite is_nan_Prim2SF. now destruct 1. Qed.

Lemma ltb_leb (x y : float) : (x <? y)%float = true -> (x <=? y)%float = true.
Proof.
  rewrite ltb_spec, leb_spec. unfold SFltb, SFleb.
  destruct (SFcompare _ _) as [[]|]; congruence.
Qed.

(** [Math.max(0, x)] is [x] when [x] is above 0, is [NaN] when [x] is, and
    is 0 otherwise. *)
Lemma Math_max_0_cases (x : float) :
  (is_nan x = true /\ Math_max 0 x = nan)
  \/ (is_nan x = false /\ (0 <? x)%float = true /\ Math_max 0 x = x)
  \/ (is_nan x = false /\ (0 <? x)%float = false /\ Math_max 0 x = 0%float).
Proof.
  unfold Math_max. change (is_nan 0) with false. cbn [orb].
  destruct (is_nan x); [left; now split|right].
  destruct (0 <? x)%float; [left; repeat split|right; repeat split].
  destruct (x <? 0)%float; reflexivity.
Qed.

Lemma Math_max_0_not_below (x : float) : (Math_max 0 x <? 0)%float = false.
Proof.
  destruct (Math_max_0_cases x) as [(_ & ->)|[(_ & Hlt & ->)|(_ & _ & ->)]];
    try reflexivity.
  revert Hlt. rewrite !ltb_spec. unfold SFltb. rewrite Prim2SF_zero.
  destruct (Prim2SF x) as [[]|[]| |[] m e]; cbn; congruence.
Qed.

Lemma Math_max_0_lower (x : float) :
  is_nan x = false -> (0 <=? Math_max 0 x)%float = true.
Proof.
  intros Hnan.
  destruct (Math_max_0_cases x) as [(E & _)|[(_ & Hlt & ->)|(_ & _ & ->)]].
  - congruence.
  - now apply ltb_leb.
  - reflexivity.
Qed.

(** Below or at 0 means a zero, a negative number or minus infinity. *)
Lemma leb_0_signed (x : float) :
  (x <=? 0)%float = true ->
  (exists s, Prim2SF x = S754_zero s) \/ signed true (Prim2SF x).
Proof.
  rewrite leb_spec, Prim2SF_zero. unfold SFleb.
  destruct (Prim2SF x) as [s|[]| |[] m e]; cbn; try discriminate; intros _.
  - left. now exists s.
  - right. constructor.
  - right. constructor.
Qed.

(** Subtracting 1 from a number at or below 0 gives a negative one. *)
Lemma sub_1_signed (x : float) :
  (x <=? 0)%float = true -> signed true (Prim2SF (x - 1)).
Proof.
  intros Hle. rewrite sub_spec, Prim2SF_one.
  destruct (leb_0_signed x Hle) as [(s & ->)|Hs].
  - cbn. constructor.
  - inversion Hs as [E|m e E|E]; cbn [SF64sub SFsub].
    + constructor.
    + unfold SF64sub, SFsub. cbv zeta. cbn [cond_Zopp].
      set (a := fst (shl_align m e _)). set (b := fst (shl_align _ _ _)).
      change (- Zpos a - Zpos b) with (Zneg (a + b)).
      cbn [binary_normalize]. apply binary_round_signed.
    + constructor.
Qed.

Lemma Math_max_0_signed (x : float) : signed true (Prim2SF x) -> Math_max 0 x = 0%float.
Proof.
  intros Hs.
  destruct (Math_max_0_cases x) as [(E & _)|[(_ & Hlt & _)|(_ & _ & ->)]].
  - rewrite (signed_not_nan _ _ Hs) in E. discriminate.
  - revert Hlt. rewrite ltb_spec, Prim2SF_zero. unfold SFltb.
    inversion Hs; cbn; discriminate.
  - reflexivity.
Qed.

(** Subtracting 1 from a number that is not [NaN] does not give [NaN]. *)
Lemma sub_1_not_nan (x : float) : is_nan x = false -> is_nan (x - 1) = false.
Proof.
  rewrite !is_nan_Prim2SF, sub_spec, Prim2SF_one.
  destruct (Prim2SF x) as [s|s| |s m e]; try reflexivity; try discriminate.
  intros _. unfold SF64sub, SFsub. cbv zeta.
  set (z := _ - _). destruct z as [|p|p]; cbn [binary_normalize]; [reflexivity| |].
  - now destruct (binary_round_signed false p (Z.min e (-52))).
  - now destruct (binary_round_signed true p (Z.min e (-52))).
Qed.

Lemma float_of_Z_finite (p : positive) :
  Zpos p <= 2 ^ 53 -> exists m e, Prim2SF (float_of_Z (Zpos p)) = S754_finite false m e.
Proof.
  intros Hp. destruct (Z.eq_dec (Zpos p) (2 ^ 53)) as [E|E].
  - assert (p = 9007199254740992%positive) as -> by lia.
    now exists 4503599627370496%positive, 1.
  - rewrite Prim2SF_float_of_Z by lia. eauto.
Qed.

(** On the integers from 0 to [2^53], [Math.max(0, n)] is [n]. *)
Lemma Math_max_0_float_of_Z (n : Z) :
  0 <= n <= 2 ^ 53 -> Math_max 0 (float_of_Z n) = float_of_Z n.
Proof.
  intros Hn. destruct n as [|p|p]; [reflexivity| |lia].
  destruct (float_of_Z_finite p ltac:(lia)) as (m & e & E).
  destruct (Math_max_0_cases (float_of_Z (Zpos p))) as [(N & _)|[(_ & _ & ->)|(_ & Hlt & _)]].
  - rewrite is_nan_Prim2SF, E in N. discriminate.
  - reflexivity.
  - rewrite ltb_spec, Prim2SF_zero, E in Hlt. discriminate.
Qed.

Lemma leb_float_of_Z_0 (n : Z) :
  0 <= n <= 2 ^ 53 -> (float_of_Z n <=? 0)%float = (n =? 0).
Proof.
  intros Hn. destruct n as [|p|p]; [reflexivity| |lia].
  destruct (float_of_Z_finite p ltac:(lia)) as (m & e & E).
  rewrite leb_spec, Prim2SF_zero, E. reflexivity.
Qed.

End Binary64.

Section Navigation.
Context {num : Type} `{JsNumber num}.

Lemma setPageNumber_same (f : float -> float) (s : State.t num) :
  f (State.pageNumber s) = State.pageNumber s -> setPageNumber f s = s.
Proof.
  destruct s; unfold setPageNumber; simpl. intros ->. reflexivity.
Qed.

(** C8, as the code has it.  On page 0 the Previous button is disabled
    and its handler leaves the state as it is.  From any page it stores
    [Math.max(0, pageNumber - 1)]: that is never below 0, it is at least 0
    whenever the page is a number and not [NaN], and on the integer pages
    from 1 to [2^53] it is the page before.  The Next button is never
    disabled and its handler stores [pageNumber + 1], rounded as doubles
    are: on the integer pages from 0 below [2^53] that is the next page. *)
Theorem page_navigation (s : State.t num) :
  (State.pageNumber s = 0%float ->
     previousDisabled s = true /\ handlePreviousPage s = s)
  /\ State.pageNumber (handlePreviousPage s)
     = Math_max 0 (State.pageNumber s - 1)%float
  /\ (State.pageNumber (handlePreviousPage s) <? 0)%float = false
  /\ (is_nan (State.pageNumber s) = false ->
        (0 <=? State.pageNumber (handlePreviousPage s))%float = true)
  /\ (forall n : Z, (1 <= n <= 2 ^ 53)%Z -> State.pageNumber s = float_of_Z n ->
        State.pageNumber (handlePreviousPage s) = float_of_Z (n - 1))
  /\ nextDisabled s = false
  /\ State.pageNumber (handleNextPage s) = (State.pageNumber s + 1)%float
  /\ (forall n : Z, (0 <= n < 2 ^ 53)%Z -> State.pageNumber s = float_of_Z n ->
        State.pageNumber (handleNextPage s) = float_of_Z (n + 1)).
Proof.
  split; [intros Hzero; split|].
  - unfold previousDisabled. rewrite Hzero. reflexivity.
  - apply setPageNumber_same. rewrite Hzero. reflexivity.
  - cbn [handlePreviousPage handleNextPage setPageNumber State.pageNumber].
    split; [reflexivity|].
    split; [apply Math_max_0_not_below|].
    split; [intros Hnan; apply Math_max_0_lower, sub_1_not_nan, Hnan|].
    split.
    { intros n Hn ->. rewrite float_of_Z_pred by exact Hn.
      apply Math_max_0_float_of_Z. lia. }
    split; [reflexivity|].
    split; [reflexivity|].
    intros n Hn ->. apply float_of_Z_succ, Hn.
Qed.

End Navigation.

(** C8 fails as stated: at page [2^53] the Next button is enabled, and
    its handler leaves the page number where it is, since [2^53 + 1] is
    not a double and the sum rounds back to [2^53]. *)
Lemma handleNextPage_stalls :
  let s : State.t number := setPageNumber (fun _ => float_of_Z (2 ^ 53)) idle_state in
  State.pageNumber s = 9007199254740992%float
  /\ nextDisabled s = false
  /\ State.pageNumber (handleNextPage s) = State.pageNumber s
  /\ handleNextPage s = s.
Proof.
  cbv zeta. split; [reflexivity|]. split; [reflexivity|].
  split; reflexivity.
Qed.

Lemma page_navigation_witness :
  let s : State.t number := setPageNumber (fun _ => 0%float) idle_state in
  State.pageNumber s = 0%float
  /\ previousDisabled s = true
  /\ handlePreviousPage s = s
  /\ State.pageNumber (handleNextPage s) = 1%float
  /\ State.pageNumber (handlePreviousPage (handleNextPage (handleNextPage s))) = 1%float.
Proof.
  intros s.
  destruct (page_navigation s) as (Hzero & _ & _ & _ & _ & _ & _ & Hnext).
  destruct (Hzero eq_refl) as (Hdis & Hnoop).
  split; [reflexivity|]. split; [exact Hdis|]. split; [exact Hnoop|].
  split; [exact (Hnext 0%Z ltac:(lia) eq_refl)|].
  destruct (page_navigation (handleNextPage (handleNextPage s)))
    as (_ & _ & _ & _ & Hprev & _).
  exact (Hprev 2%Z ltac:(lia) eq_refl).
Defined.

Section Derivation.
Context {num : Type} `{JsNumber num}.
Local Open Scope list_scope.

Lemma map_from_length {A B : Type} (f : A -> nat -> B) (l : list A) (k : nat) :
  List.length (map_from f k l) = List.length l.
Proof.
  revert k. induction l as [|a l IH]; intros k; simpl; [reflexivity|].
  now rewrite IH.
Qed.

Lemma map_from_nth_error {A B : Type} (f : A -> nat -> B) (l : list A) (k i : nat) :
  nth_error (map_from f k l) i = option_map (fun a => f a (k + i)%nat) (nth_error l i).
Proof.
  revert k i. induction l as [|a l IH]; intros k [|i]; simpl; try reflexivity.
  - now rewrite Nat.add_0_r.
  - rewrite IH. now rewrite Nat.add_succ_comm.
Qed.

Lemma map_from_ids (blocks : list (Block.t num)) (k : nat) :
  map DraggableRect.id (map_from blockToRect k blocks)
  = map (fun i => ("rect-" ++ string_of_nat i)%string) (seq k (List.length blocks)).
Proof.
  revert k. induction blocks as [|b blocks IH]; intros k; simpl; [reflexivity|].
  now rewrite IH.
Qed.

(** C4, as the code has it.  When the first page entry of a newly stored
    document carries a [preproc_blocks] list, the effect replaces the
    rectangle set by one rectangle per block, in block order, so the
    counts agree; the new set is a function of the document alone, so
    nothing of the previous set is carried over, and its ids are the
    positional [rect-0], [rect-1], ... *)
Theorem jsonDataEffect_replaces_rectangles
    (s : State.t num) (doc : JsonData.t num) (page : PageInfo.t num)
    (rest : list (PageInfo.t num)) (blocks : list (Block.t num)) :
  JsonData.pdf_info doc = page :: rest ->
  PageInfo.preproc_blocks page = Some blocks ->
  exists s',
    jsonDataEffect (setJsonData (Some doc) s) = Some s'
    /\ List.length (State.rectangles s') = List.length blocks
    /\ (forall i,
          nth_error (State.rectangles s') i
          = option_map (fun b => blockToRect b i) (nth_error blocks i))
    /\ map DraggableRect.id (State.rectangles s')
       = map (fun i => ("rect-" ++ string_of_nat i)%string)
             (seq 0 (List.length blocks))
    /\ (forall s2 : State.t num,
          option_map State.rectangles (jsonDataEffect (setJsonData (Some doc) s2))
          = Some (State.rectangles s')).
Proof.
  intros Hinfo Hblocks.
  exists (setRectangles (fun _ => array_map_index blockToRect blocks)
                        (setJsonData (Some doc) s)).
  unfold jsonDataEffect. cbn [State.jsonData setJsonData].
  rewrite Hinfo, Hblocks. cbn [State.rectangles setRectangles].
  repeat split.
  - apply map_from_length.
  - intros i. unfold array_map_index. now rewrite map_from_nth_error.
  - apply map_from_ids.
Qed.

(** C10.  When the first page entry of a newly stored document has no
    (truthy) [preproc_blocks], the effect changes nothing: the rectangles
    on display stay exactly those of the previous page. *)
Theorem jsonDataEffect_without_blocks
    (s : State.t num) (doc : JsonData.t num) (page : PageInfo.t num)
    (rest : list (PageInfo.t num)) :
  JsonData.pdf_info doc = page :: rest ->
  PageInfo.preproc_blocks page = None ->
  jsonDataEffect (setJsonData (Some doc) s) = Some (setJsonData (Some doc) s)
  /\ State.rectangles (setJsonData (Some doc) s) = State.rectangles s.
Proof.
  intros Hinfo Hblocks. split; [|reflexivity].
  unfold jsonDataEffect. cbn [State.jsonData setJsonData].
  now rewrite Hinfo, Hblocks.
Qed.

(** A type tag that is neither one of the four categories nor a member
    of [Object.prototype] falls back to ["black"], the colour of a title
    block. *)
Lemma blockToRect_fallback_color (block : Block.t num) (index : nat) :
  Block.type block <> "title" ->
  Block.type block <> "image" ->
  Block.type block <> "text" ->
  Block.type block <> "interline_equation" ->
  isPrototypeKey (Block.type block) = false ->
  DraggableRect.color (blockToRect block index) = VString "black"
  /\ DraggableRect.color (blockToRect block index)
     = DraggableRect.color
         (blockToRect (Block.mk "title" (Block.bbox block)) index).
Proof.
  intros H1 H2 H3 H4 Hp.
  unfold blockToRect, categoryColors. cbn [DraggableRect.color Block.type].
  rewrite Hp.
  repeat match goal with
         | |- context [String.eqb ?a ?b] =>
             destruct (String.eqb_spec a b); [contradiction|]
         end.
  split; reflexivity.
Qed.

(** C9 at the failing input.  A block whose type tag is ["constructor"]
    is not of the four categories, yet its rectangle's colour is the
    member inherited from [Object.prototype], not ["black"], and so
    differs from the colour of a title rectangle. *)
Theorem blockToRect_constructor_color (bbox : list num) (index : nat) :
  DraggableRect.color (blockToRect (Block.mk "constructor" bbox) index)
    = VInherited "constructor"
  /\ DraggableRect.color (blockToRect (Block.mk "constructor" bbox) index)
     <> VString "black"
  /\ DraggableRect.color (blockToRect (Block.mk "constructor" bbox) index)
     <> DraggableRect.color (blockToRect (Block.mk "title" bbox) index).
Proof.
  repeat split; cbv; discriminate.
Qed.

End Derivation.

Section LoadFailures.
Context {num : Type}.

Lemma loadFiles_json_not_ok (props : Props.t) (browser : Browser.t num)
    (s : State.t num) (jsonResponse : Response.t num) :
  Browser.fetch browser
    (jsonUrl props browser (Props.formatPageNumber props (State.pageNumber s)))
    = inr jsonResponse ->
  Response.ok jsonResponse = false ->
  loadFilesFrom props browser s
  = setLoading false
      (setError (Some "Failed to load JSON file") (setLoading true s)).
Proof.
  intros Hfetch Hok.
  unfold loadFilesFrom, loadFiles, try_catch, bind, await, call, throw, ret.
  cbn [State.pageNumber setLoading].
  rewrite Hfetch, Hok. reflexivity.
Qed.

Lemma loadFiles_image_not_ok (props : Props.t) (browser : Browser.t num)
    (s : State.t num) (jsonResponse imageResponse : Response.t num)
    (data : option (JsonData.t num)) :
  Browser.fetch browser
    (jsonUrl props browser (Props.formatPageNumber props (State.pageNumber s)))
    = inr jsonResponse ->
  Response.ok jsonResponse = true ->
  Response.json jsonResponse = inr data ->
  Browser.fetch browser
    (imageUrlOf props browser (Props.formatPageNumber props (State.pageNumber s)))
    = inr imageResponse ->
  Response.ok imageResponse = false ->
  loadFilesFrom props browser s
  = setLoading false
      (setError (Some "Failed to load image file")
         (setJsonData data (setLoading true s))).
Proof.
  intros Hjson Hjok Hdata Himage Hiok.
  unfold loadFilesFrom, loadFiles, try_catch, bind, await, call, throw, ret.
  cbn [State.pageNumber setLoading].
  rewrite Hjson, Hjok. cbn [negb]. rewrite Hdata, Himage, Hiok. reflexivity.
Qed.

(** C1, as the code has it.  A non-success status on either fetch stores
    exactly one error message, ends with the loading flag cleared and
    makes the component render that message alone.  When it is the JSON
    fetch that fails, nothing else of the state changes.  When it is the
    image fetch that fails, the image URL is not touched, but the JSON
    document fetched before it has already been stored in [jsonData]. *)
Theorem loadFiles_failure_state (props : Props.t) (browser : Browser.t num)
    (s : State.t num) (jsonResponse : Response.t num) :
  let formattedPageNumber := Props.formatPageNumber props (State.pageNumber s) in
  let s' := loadFilesFrom props browser s in
  Browser.fetch browser (jsonUrl props browser formattedPageNumber)
    = inr jsonResponse ->
  (Response.ok jsonResponse = false ->
     s' = setLoading false
            (setError (Some "Failed to load JSON file") (setLoading true s))
     /\ State.jsonData s' = State.jsonData s
     /\ State.imageUrl s' = State.imageUrl s
     /\ State.rectangles s' = State.rectangles s
     /\ State.loading s' = false
     /\ State.error s' = Some "Failed to load JSON file"
     /\ render s' = ErrorView "Failed to load JSON file")
  /\ (forall (data : option (JsonData.t num)) (imageResponse : Response.t num),
        Response.ok jsonResponse = true ->
        Response.json jsonResponse = inr data ->
        Browser.fetch browser (imageUrlOf props browser formattedPageNumber)
          = inr imageResponse ->
        Response.ok imageResponse = false ->
        s' = setLoading false
               (setError (Some "Failed to load image file")
                  (setJsonData data (setLoading true s)))
        /\ State.jsonData s' = data
        /\ State.imageUrl s' = State.imageUrl s
        /\ State.loading s' = false
        /\ State.error s' = Some "Failed to load image file"
        /\ render s' = ErrorView "Failed to load image file").
Proof.
  intros formattedPageNumber s' Hjson. subst s' formattedPageNumber. split.
  - intros Hok.
    rewrite (loadFiles_json_not_ok props browser s jsonResponse Hjson Hok).
    repeat split.
  - intros data imageResponse Hok Hdata Himage Hiok.
    rewrite (loadFiles_image_not_ok props browser s _ _ data
               Hjson Hok Hdata Himage Hiok).
    repeat split.
Qed.

(** C7, as the code has it.  Both failures reach the user the same way,
    as the text of the single [error] state shown in place of the viewer,
    but the text names the fetch that failed: ["Failed to load JSON
    file"] for the JSON fetch and ["Failed to load image file"] for the
    image fetch. *)
Theorem loadFiles_failure_message (props : Props.t) (browser : Browser.t num)
    (s : State.t num) (jsonResponse : Response.t num) :
  let formattedPageNumber := Props.formatPageNumber props (State.pageNumber s) in
  Browser.fetch browser (jsonUrl props browser formattedPageNumber)
    = inr jsonResponse ->
  (Response.ok jsonResponse = false ->
     render (loadFilesFrom props browser s) = ErrorView "Failed to load JSON file")
  /\ (forall (data : option (JsonData.t num)) (imageResponse : Response.t num),
        Response.ok jsonResponse = true ->
        Response.json jsonResponse = inr data ->
        Browser.fetch browser (imageUrlOf props browser formattedPageNumber)
          = inr imageResponse ->
        Response.ok imageResponse = false ->
        render (loadFilesFrom props browser s)
          = ErrorView "Failed to load image file")
  /\ ErrorView "Failed to load JSON file" <> ErrorView "Failed to load image file".
Proof.
  intros formattedPageNumber Hjson. subst formattedPageNumber.
  split; [|split].
  - intros Hok.
    now rewrite (loadFiles_json_not_ok props browser s jsonResponse Hjson Hok).
  - intros data imageResponse Hok Hdata Himage Hiok.
    now rewrite (loadFiles_image_not_ok props browser s _ _ data
                   Hjson Hok Hdata Himage Hiok).
  - discriminate.
Qed.

End LoadFailures.

Example loadFiles_both_ok :
  loadFilesFrom App_props (backend true true page_doc) (initialState App_props)
  = setLoading false
      (setImageUrl (Some "blob:page-1")
         (setJsonData (Some page_doc) (initialState App_props))).
Proof. vm_compute. reflexivity. Qed.

(** Page 1 of [Fizika] is requested under the name [Fizika-0001]. *)
Example loadFiles_requests :
  let formattedPageNumber := Props.formatPageNumber App_props 1 in
  jsonUrl App_props (backend true true page_doc) formattedPageNumber
    = "http://localhost:8888/api/get-json-file?fileName=Fizika-0001"
  /\ imageUrlOf App_props (backend true true page_doc) formattedPageNumber
     = "http://localhost:8888/api/get-pdf-file?fileName=Fizika-0001".
Proof. vm_compute. split; reflexivity. Qed.

Example page_doc_rectangles :
  option_map State.rectangles
    (jsonDataEffect (setJsonData (Some page_doc) (initialState App_props)))
  = Some [text_rect; title_rect].
Proof. vm_compute. reflexivity. Qed.

(** Once the effect on [jsonData] has run after a load whose image fetch
    failed, the rectangles are those of the fetched document. *)
Example loadFiles_image_failure_then_effect :
  State.rectangles (initialState (num := number) App_props) = []
  /\ option_map State.rectangles
       (jsonDataEffect
          (loadFilesFrom App_props (backend true false page_doc)
                         (initialState App_props)))
     = Some [text_rect; title_rect].
Proof. vm_compute. split; reflexivity. Qed.

(** C1 fails as stated: the JSON fetch succeeds, the image fetch answers
    with a non-success status, and the fetched document is in [jsonData]
    all the same. *)
Lemma loadFiles_image_failure_stores_json :
  State.jsonData
    (loadFilesFrom App_props (backend true false page_doc) (initialState App_props))
  <> State.jsonData (initialState App_props).
Proof. vm_compute. discriminate. Qed.

Lemma loadFiles_failure_state_witness :
  let s := initialState App_props in
  let s_image := loadFilesFrom App_props (backend true false page_doc) s in
  let s_json := loadFilesFrom App_props (backend false true page_doc) s in
  (State.jsonData s_image = Some page_doc
   /\ State.imageUrl s_image = None
   /\ State.loading s_image = false
   /\ render s_image = ErrorView "Failed to load image file")
  /\ (State.jsonData s_json = None
      /\ State.imageUrl s_json = None
      /\ State.loading s_json = false
      /\ render s_json = ErrorView "Failed to load JSON file").
Proof.
  intros s s_image s_json. split.
  - destruct (loadFiles_failure_state App_props (backend true false page_doc) s
                (Response.mk true (inr (Some page_doc)) (inr [])) eq_refl)
      as (_ & Himage).
    destruct (Himage (Some page_doc)
                (Response.mk false (inl (ErrorObject "Unexpected token"))
                             (inr [Byte.x89; Byte.x50; Byte.x4e; Byte.x47]))
                eq_refl eq_refl eq_refl eq_refl)
      as (_ & Hdata & Hurl & Hloading & _ & Hview).
    repeat split; assumption.
  - destruct (loadFiles_failure_state App_props (backend false true page_doc) s
                (Response.mk false (inr (Some page_doc)) (inr [])) eq_refl)
      as (Hjson & _).
    destruct (Hjson eq_refl) as (_ & Hdata & Hurl & _ & Hloading & _ & Hview).
    repeat split; assumption.
Defined.

(** C7 fails as stated: what is displayed after a failing JSON fetch
    differs from what is displayed after a failing image fetch. *)
Lemma render_distinguishes_failures :
  render (loadFilesFrom App_props (backend false true page_doc)
                        (initialState App_props))
  <> render (loadFilesFrom App_props (backend true false page_doc)
                           (initialState App_props)).
Proof. vm_compute. discriminate. Qed.

Lemma loadFiles_failure_message_witness :
  let s : State.t number := initialState App_props in
  render (loadFilesFrom App_props (backend false true page_doc) s)
    = ErrorView "Failed to load JSON file"
  /\ render (loadFilesFrom App_props (backend true false page_doc) s)
     = ErrorView "Failed to load image file".
Proof.
  intros s. split.
  - destruct (loadFiles_failure_message App_props (backend false true page_doc) s
                (Response.mk false (inr (Some page_doc)) (inr [])) eq_refl)
      as (Hjson & _ & _).
    exact (Hjson eq_refl).
  - destruct (loadFiles_failure_message App_props (backend true false page_doc) s
                (Response.mk true (inr (Some page_doc)) (inr [])) eq_refl)
      as (_ & Himage & _).
    exact (Himage (Some page_doc)
             (Response.mk false (inl (ErrorObject "Unexpected token"))
                          (inr [Byte.x89; Byte.x50; Byte.x4e; Byte.x47]))
             eq_refl eq_refl eq_refl eq_refl).
Defined.

(** C4 fails as stated: a document whose first page entry has no
    [preproc_blocks] is loaded over a page showing two rectangles; the
    page has no block, yet both rectangles of the previous page are still
    there. *)
Lemma jsonDataEffect_blockless_keeps_previous :
  option_map State.rectangles
    (jsonDataEffect (setJsonData (Some blockless_doc) idle_state))
  = Some [text_rect; title_rect]
  /\ option_map State.rectangles
       (jsonDataEffect (setJsonData (Some blockless_doc) idle_state))
     <> Some [].
Proof. split; [vm_compute; reflexivity | vm_compute; discriminate]. Qed.

(** Loading the one-block page over the two-rectangle page leaves one
    rectangle, derived from that block; it is again called [rect-0]. *)
Lemma jsonDataEffect_replaces_rectangles_witness :
  JsonData.pdf_info next_doc
    = [ PageInfo.mk
          (Some [ Block.mk "image" [num_lit 5; num_lit 5; num_lit 25; num_lit 45] ]) ]
  /\ option_map State.rectangles
       (jsonDataEffect (setJsonData (Some next_doc) idle_state))
     = Some [ DraggableRect.mk "rect-0" (num_lit 5) (num_lit 5)
                               (num_lit 20) (num_lit 40) (VString "blue") "image" ].
Proof.
  split; [reflexivity|].
  destruct (jsonDataEffect_replaces_rectangles idle_state next_doc
              (PageInfo.mk
                 (Some [ Block.mk "image"
                           [num_lit 5; num_lit 5; num_lit 25; num_lit 45] ]))
              [] _ eq_refl eq_refl)
    as (s' & Heffect & Hlen & Hnth & _).
  rewrite Heffect. cbn [option_map]. f_equal.
  pose proof (Hnth 0%nat) as H0.
  destruct (State.rectangles s') as [|r [|r' l]]; try discriminate Hlen.
  cbn in H0. injection H0 as ->. reflexivity.
Defined.

(** The title rectangle is moved, then a document without
    [preproc_blocks] arrives: the moved rectangle is still displayed. *)
Lemma jsonDataEffect_without_blocks_witness :
  let edited :=
    handleMouseMove (Some origin_canvas)
                    (MouseEvent.mk (num_lit 7) (num_lit (-3)))
                    (dragging_state DragMode.Move) in
  JsonData.pdf_info blockless_doc = [PageInfo.mk None]
  /\ option_map State.rectangles
       (jsonDataEffect (setJsonData (Some blockless_doc) edited))
     = Some [ text_rect;
              DraggableRect.mk "rect-1" (num_lit 7) (num_lit (-3))
                               (num_lit 10) (num_lit 10) (VString "black") "title" ].
Proof.
  intros edited. split; [reflexivity|].
  destruct (jsonDataEffect_without_blocks edited blockless_doc
              (PageInfo.mk None) [] eq_refl eq_refl) as (Heffect & Hrects).
  rewrite Heffect. reflexivity.
Defined.

(** A [table] block, a tag outside the four categories, is drawn in the
    colour of a title block. *)
Example blockToRect_table_color :
  DraggableRect.color
    (blockToRect (Block.mk "table" [num_lit 0; num_lit 0; num_lit 4; num_lit 4]) 3)
  = VString "black"
  /\ DraggableRect.color
       (blockToRect (Block.mk "title" [num_lit 0; num_lit 0; num_lit 4; num_lit 4]) 3)
     = VString "black"
  /\ DraggableRect.id
       (blockToRect (Block.mk "table" [num_lit 0; num_lit 0; num_lit 4; num_lit 4]) 3)
     = "rect-3".
Proof. vm_compute. repeat split. Qed.

(** * Further properties of the handlers *)

Section Gestures.
Context {num : Type} `{JsNumber num}.
Local Open Scope list_scope.

Lemma spec_firstMatch_in {A : Type} (tests : list (A * bool)) (a : A) :
  spec_firstMatch tests = Some a -> In a (map fst tests).
Proof.
  induction tests as [|[a' b] tests IH]; simpl; [discriminate|].
  destruct b.
  - intros [= ->]. now left.
  - intros Hm. right. now apply IH.
Qed.

Lemma spec_hitMode_not_None (x y : num) (r : DraggableRect.t num) (m : DragMode.t) :
  spec_hitMode x y r = Some m -> m <> DragMode.None.
Proof.
  intros Hm. apply spec_firstMatch_in in Hm. simpl in Hm.
  intros ->. repeat (destruct Hm as [Hm|Hm]; [discriminate|]). exact Hm.
Qed.

Lemma spec_hitTest_in (x y : num) (rects : list (DraggableRect.t num))
    (r : DraggableRect.t num) (m : DragMode.t) :
  spec_hitTest x y rects = Some (r, m) ->
  In r rects /\ spec_hitMode x y r = Some m.
Proof.
  intros Hhit.
  destruct (spec_hitTest_first _ _ _ _ _ Hhit) as (before & after & -> & _ & Hm).
  split; [|exact Hm]. apply in_or_app. right. now left.
Qed.

Lemma handleMouseDown_unfold (rect : DOMRect.t num) (e : MouseEvent.t num)
    (s : State.t num) :
  handleMouseDown (Some rect) e s =
  match spec_hitTest (Point.x (pointerAt rect e)) (Point.y (pointerAt rect e))
                     (State.rectangles s) with
  | Some (r, m) =>
      setLastMousePos (pointerAt rect e)
        (setDraggedRectId (Some (DraggableRect.id r)) (setDragMode m s))
  | None => s
  end.
Proof.
  unfold handleMouseDown, pointerAt. cbn [Point.x Point.y].
  rewrite array_find_hitCallback.
  destruct (spec_hitTest _ _ _) as [[r m]|]; reflexivity.
Qed.

(** A pointer-down either changes nothing or starts a drag: the mode is
    never [None] afterwards, the selected id is the id of a rectangle of
    the list, and the pointer position is recorded.  With the canvas
    unmounted it changes nothing. *)
Theorem handleMouseDown_outcome (canvas : option (DOMRect.t num))
    (e : MouseEvent.t num) (s : State.t num) :
  handleMouseDown None e s = s
  /\ (handleMouseDown canvas e s = s
      \/ exists rect r,
           canvas = Some rect
           /\ In r (State.rectangles s)
           /\ State.dragMode (handleMouseDown canvas e s) <> DragMode.None
           /\ State.draggedRectId (handleMouseDown canvas e s)
              = Some (DraggableRect.id r)
           /\ State.lastMousePos (handleMouseDown canvas e s) = pointerAt rect e).
Proof.
  split; [reflexivity|].
  destruct canvas as [rect|]; [|now left].
  rewrite handleMouseDown_unfold.
  destruct (spec_hitTest _ _ _) as [[r m]|] eqn:Hhit; [|now left].
  right. exists rect, r.
  destruct (spec_hitTest_in _ _ _ _ _ Hhit) as (Hin & Hm).
  repeat split; try assumption.
  cbn. now apply spec_hitMode_not_None in Hm.
Qed.

Lemma handleMouseDown_rectangles (canvas : option (DOMRect.t num))
    (e : MouseEvent.t num) (s : State.t num) :
  State.rectangles (handleMouseDown canvas e s) = State.rectangles s.
Proof.
  destruct canvas as [rect|]; [|reflexivity].
  rewrite handleMouseDown_unfold.
  destruct (spec_hitTest _ _ _) as [[r m]|]; reflexivity.
Qed.

(** A pointer-down never edits anything but the drag state: the
    rectangles, the page number, the loaded document and image, and the
    loading and error flags are as before. *)
Theorem handleMouseDown_frame (canvas : option (DOMRect.t num))
    (e : MouseEvent.t num) (s : State.t num) :
  let s' := handleMouseDown canvas e s in
  State.rectangles s' = State.rectangles s
  /\ State.pageNumber s' = State.pageNumber s
  /\ State.jsonData s' = State.jsonData s
  /\ State.imageUrl s' = State.imageUrl s
  /\ State.loading s' = State.loading s
  /\ State.error s' = State.error s
  /\ State.imageDimensions s' = State.imageDimensions s.
Proof.
  cbv zeta. destruct canvas as [rect|]; [|repeat split].
  rewrite handleMouseDown_unfold.
  destruct (spec_hitTest _ _ _) as [[r m]|]; repeat split.
Qed.

Lemma handleMouseUp_idle (s : State.t num) : dragIdle (handleMouseUp s) = true.
Proof. reflexivity. Qed.

(** A pointer-up (or the pointer leaving the canvas) ends the gesture:
    no mode and no rectangle stay selected, nothing else changes, every
    pointer-move that follows is ignored, and a second pointer-up changes
    nothing more. *)
Theorem handleMouseUp_ends_gesture (canvas : option (DOMRect.t num))
    (e : MouseEvent.t num) (s : State.t num) :
  let s' := handleMouseUp s in
  State.dragMode s' = DragMode.None
  /\ State.draggedRectId s' = None
  /\ State.rectangles s' = State.rectangles s
  /\ State.lastMousePos s' = State.lastMousePos s
  /\ State.pageNumber s' = State.pageNumber s
  /\ handleMouseMove canvas e s' = s'
  /\ handleMouseUp s' = s'.
Proof.
  cbv zeta. repeat split.
Qed.

End Gestures.

Section DragInvariants.
Context {num : Type} `{JsNumber num}.
Local Open Scope list_scope.

Lemma applyDrag_keeps_identity (m : DragMode.t) (dx dy : num)
    (r : DraggableRect.t num) :
  DraggableRect.id (applyDrag m dx dy r) = DraggableRect.id r
  /\ DraggableRect.color (applyDrag m dx dy r) = DraggableRect.color r
  /\ DraggableRect.type (applyDrag m dx dy r) = DraggableRect.type r.
Proof. destruct m; repeat split. Qed.

Lemma dragCallback_keeps_identity (m : DragMode.t) (d : string) (dx dy : num)
    (r : DraggableRect.t num) :
  DraggableRect.id (dragCallback m d dx dy r) = DraggableRect.id r
  /\ DraggableRect.color (dragCallback m d dx dy r) = DraggableRect.color r
  /\ DraggableRect.type (dragCallback m d dx dy r) = DraggableRect.type r.
Proof.
  unfold dragCallback.
  destruct (negb _); [repeat split | apply applyDrag_keeps_identity].
Qed.

Lemma dragCallback_changed (m : DragMode.t) (d : string) (dx dy : num)
    (r : DraggableRect.t num) :
  dragCallback m d dx dy r <> r -> DraggableRect.id r = d.
Proof.
  unfold dragCallback.
  destruct (String.eqb_spec (DraggableRect.id r) d); cbn [negb]; [auto|].
  intros Hne. now contradiction Hne.
Qed.

(** What a pointer-move does to the rectangle list, whatever the state:
    the list itself, or the list mapped through one [dragCallback]. *)
Lemma handleMouseMove_rectangles (canvas : option (DOMRect.t num))
    (e : MouseEvent.t num) (s : State.t num) :
  State.rectangles (handleMouseMove canvas e s) = State.rectangles s
  \/ exists m d dx dy,
       State.rectangles (handleMouseMove canvas e s)
       = map (dragCallback m d dx dy) (State.rectangles s).
Proof.
  unfold handleMouseMove.
  destruct (_ || _); [now left|].
  destruct canvas as [rect|]; [|now left].
  right. cbn [State.rectangles setLastMousePos setRectangles].
  eexists _, _, _, _. reflexivity.
Qed.

(** Whatever the drag state and the event, a pointer-move keeps the
    number and order of the rectangles and the id, colour and type of
    each; it never changes the drag mode, the selected id, the page
    number or the loaded data. *)
Theorem handleMouseMove_invariants (canvas : option (DOMRect.t num))
    (e : MouseEvent.t num) (s : State.t num) :
  let s' := handleMouseMove canvas e s in
  List.length (State.rectangles s') = List.length (State.rectangles s)
  /\ map DraggableRect.id (State.rectangles s')
     = map DraggableRect.id (State.rectangles s)
  /\ map DraggableRect.color (State.rectangles s')
     = map DraggableRect.color (State.rectangles s)
  /\ map DraggableRect.type (State.rectangles s')
     = map DraggableRect.type (State.rectangles s)
  /\ State.dragMode s' = State.dragMode s
  /\ State.draggedRectId s' = State.draggedRectId s
  /\ State.pageNumber s' = State.pageNumber s
  /\ State.jsonData s' = State.jsonData s
  /\ State.imageUrl s' = State.imageUrl s.
Proof.
  cbv zeta.
  assert (State.dragMode (handleMouseMove canvas e s) = State.dragMode s
          /\ State.draggedRectId (handleMouseMove canvas e s) = State.draggedRectId s
          /\ State.pageNumber (handleMouseMove canvas e s) = State.pageNumber s
          /\ State.jsonData (handleMouseMove canvas e s) = State.jsonData s
          /\ State.imageUrl (handleMouseMove canvas e s) = State.imageUrl s) as Hframe.
  { unfold handleMouseMove. destruct (_ || _); [repeat split|].
    destruct canvas; repeat split. }
  destruct (handleMouseMove_rectangles canvas e s) as [-> | (m & d & dx & dy & ->)].
  - repeat split; apply Hframe.
  - rewrite length_map, !map_map.
    repeat split; try apply Hframe;
      apply map_ext; intros r; apply dragCallback_keeps_identity.
Qed.

(** When the ids of the rectangles are pairwise distinct, a pointer-move
    changes at most one rectangle: if the rectangle at position [i] is
    not what it was, the rectangle at every other position is. *)
Theorem handleMouseMove_changes_at_most_one (canvas : option (DOMRect.t num))
    (e : MouseEvent.t num) (s : State.t num) (i j : nat) :
  NoDup (map DraggableRect.id (State.rectangles s)) ->
  nth_error (State.rectangles (handleMouseMove canvas e s)) i
    <> nth_error (State.rectangles s) i ->
  j <> i ->
  nth_error (State.rectangles (handleMouseMove canvas e s)) j
    = nth_error (State.rectangles s) j.
Proof.
  intros Hnodup Hi Hji.
  destruct (handleMouseMove_rectangles canvas e s) as [E | (m & d & dx & dy & E)];
    rewrite E in *; [reflexivity|].
  rewrite nth_error_map in *.
  destruct (nth_error (State.rectangles s) i) as [ri|] eqn:Ei; [|now contradiction Hi].
  destruct (nth_error (State.rectangles s) j) as [rj|] eqn:Ej; [|reflexivity].
  cbn [option_map] in *. f_equal.
  assert (DraggableRect.id ri = d) as Hdi
      by (apply (dragCallback_changed m d dx dy); congruence).
  apply dragCallback_other. intros Hdj. apply Hji.
  apply (proj1 (NoDup_nth_error (map DraggableRect.id (State.rectangles s))) Hnodup).
  - rewrite length_map. apply nth_error_Some. congruence.
  - rewrite !nth_error_map, Ei, Ej. cbn. congruence.
Qed.

(** Each corner mode is the composition of its two edge modes, in either
    order. *)
Theorem applyDrag_corners_compose (dx dy : num) (r : DraggableRect.t num) :
  let top := applyDrag DragMode.ResizeTop dx dy in
  let right := applyDrag DragMode.ResizeRight dx dy in
  let bottom := applyDrag DragMode.ResizeBottom dx dy in
  let left := applyDrag DragMode.ResizeLeft dx dy in
  applyDrag DragMode.ResizeTopLeft dx dy r = left (top r)
  /\ applyDrag DragMode.ResizeTopRight dx dy r = top (right r)
  /\ applyDrag DragMode.ResizeTopRight dx dy r = right (top r)
  /\ applyDrag DragMode.ResizeBottomLeft dx dy r = bottom (left r)
  /\ applyDrag DragMode.ResizeBottomLeft dx dy r = left (bottom r)
  /\ applyDrag DragMode.ResizeBottomRight dx dy r = bottom (right r)
  /\ applyDrag DragMode.ResizeBottomRight dx dy r = right (bottom r).
Proof. cbv zeta. repeat split. Qed.

End DragInvariants.

(** A resize stores the edge it moves and the size, each computed on its
    own, and on doubles both round, so the opposite edge is not always
    where it was: pulling the left edge of a rectangle at 0.1 of width 0.7
    by 0.2 stores [x = 0.30000000000000004] and
    [width = 0.49999999999999994], and the right edge [x + width] goes
    from 0.7999999999999999 to 0.8. *)
Example applyDrag_binary64_rounds :
  let r : DraggableRect.t float :=
    DraggableRect.mk "rect-0" (1 / 10)%float 0%float (7 / 10)%float 1%float
                     (VString "blue") "text" in
  let r' :=
    @applyDrag float binary64_JsNumber DragMode.ResizeLeft (2 / 10)%float 0%float r in
  Number_toString (DraggableRect.x r') = "0.30000000000000004"
  /\ Number_toString (DraggableRect.width r') = "0.49999999999999994"
  /\ Number_toString (DraggableRect.x r + DraggableRect.width r)%float
     = "0.7999999999999999"
  /\ Number_toString (DraggableRect.x r' + DraggableRect.width r')%float = "0.8".
Proof. vm_compute. repeat split. Qed.

(** While the title rectangle is dragged, the text rectangle before it
    stays as it is. *)
Lemma handleMouseMove_changes_at_most_one_witness :
  let s := dragging_state DragMode.ResizeBottomRight in
  let e := MouseEvent.mk (num_lit 3) (num_lit 9) in
  NoDup (map DraggableRect.id (State.rectangles s))
  /\ nth_error (State.rectangles (handleMouseMove (Some origin_canvas) e s)) 1
     <> nth_error (State.rectangles s) 1
  /\ nth_error (State.rectangles (handleMouseMove (Some origin_canvas) e s)) 0
     = Some text_rect.
Proof.
  intros s e.
  assert (NoDup (map DraggableRect.id (State.rectangles s))) as Hnodup.
  { cbn. repeat constructor; cbn; intuition discriminate. }
  assert (nth_error (State.rectangles (handleMouseMove (Some origin_canvas) e s)) 1
          <> nth_error (State.rectangles s) 1) as Hchanged
      by (vm_compute; discriminate).
  split; [exact Hnodup|]. split; [exact Hchanged|].
  assert (0%nat <> 1%nat) as Hne by discriminate.
  exact (handleMouseMove_changes_at_most_one (Some origin_canvas) e s 1 0
           Hnodup Hchanged Hne).
Defined.

Section EditingSession.
Context {num : Type} `{JsNumber num}.
Local Open Scope list_scope.

Lemma string_of_nat_inj (n m : nat) : string_of_nat n = string_of_nat m -> n = m.
Proof.
  unfold string_of_nat. intros E.
  apply DecimalNat.Unsigned.to_uint_inj.
  assert (Some (Nat.to_uint n) = Some (Nat.to_uint m)) as E' by
      (rewrite <- !NilEmpty.usu; now rewrite E).
  now injection E'.
Qed.

Lemma map_from_ids_NoDup (blocks : list (Block.t num)) (k : nat) :
  NoDup (map DraggableRect.id (map_from blockToRect k blocks)).
Proof.
  rewrite map_from_ids.
  apply Injective_map_NoDup; [|apply seq_NoDup].
  intros n m E. injection E as E. now apply string_of_nat_inj.
Qed.

Lemma map_from_ids_truthy (blocks : list (Block.t num)) (k : nat) :
  Forall (fun r => draggedRectId_falsy (Some (DraggableRect.id r)) = false)
         (map_from blockToRect k blocks).
Proof.
  revert k. induction blocks as [|b blocks' IH]; intros k; cbn [map_from].
  - constructor.
  - constructor; [reflexivity | apply IH].
Qed.

(** The rectangles derived from a document have pairwise distinct ids,
    none of them empty (an empty id would count as no selection). *)
Theorem jsonDataEffect_ids_distinct
    (s : State.t num) (doc : JsonData.t num) (page : PageInfo.t num)
    (rest : list (PageInfo.t num)) (blocks : list (Block.t num)) :
  JsonData.pdf_info doc = page :: rest ->
  PageInfo.preproc_blocks page = Some blocks ->
  exists s',
    jsonDataEffect (setJsonData (Some doc) s) = Some s'
    /\ NoDup (map DraggableRect.id (State.rectangles s'))
    /\ Forall (fun r => draggedRectId_falsy (Some (DraggableRect.id r)) = false)
              (State.rectangles s').
Proof.
  intros Hinfo Hblocks.
  exists (setRectangles (fun _ => array_map_index blockToRect blocks)
                        (setJsonData (Some doc) s)).
  unfold jsonDataEffect. cbn [State.jsonData setJsonData].
  rewrite Hinfo, Hblocks. split; [reflexivity|].
  cbn [State.rectangles setRectangles]. split.
  - apply map_from_ids_NoDup.
  - apply map_from_ids_truthy.
Qed.

Lemma handlePointerEvent_keeps (s : State.t num) (ev : PointerEvent num) :
  map rect_identity (State.rectangles (handlePointerEvent s ev))
    = map rect_identity (State.rectangles s)
  /\ State.pageNumber (handlePointerEvent s ev) = State.pageNumber s
  /\ State.jsonData (handlePointerEvent s ev) = State.jsonData s
  /\ State.imageUrl (handlePointerEvent s ev) = State.imageUrl s
  /\ State.loading (handlePointerEvent s ev) = State.loading s
  /\ State.error (handlePointerEvent s ev) = State.error s.
Proof.
  destruct ev as [canvas e | canvas e | |]; cbn [handlePointerEvent].
  - rewrite handleMouseDown_rectangles.
    destruct canvas as [rect|]; [|repeat split].
    rewrite handleMouseDown_unfold.
    destruct (spec_hitTest _ _ _) as [[r m]|]; repeat split.
  - split.
    + destruct (handleMouseMove_rectangles canvas e s)
        as [-> | (m & d & dx & dy & ->)]; [reflexivity|].
      rewrite map_map. apply map_ext. intros r. unfold rect_identity.
      destruct (dragCallback_keeps_identity m d dx dy r) as (-> & -> & ->).
      reflexivity.
    + unfold handleMouseMove. destruct (_ || _); [repeat split|].
      destruct canvas; repeat split.
  - repeat split.
  - repeat split.
Qed.

(** No sequence of pointer events adds, removes, reorders, renames or
    recolours a rectangle, nor touches the page number, the loaded
    document and image, or the loading and error flags: gestures only
    edit geometry and drag state. *)
Theorem handlePointerEvents_keep_identities (evs : list (PointerEvent num))
    (s : State.t num) :
  let s' := handlePointerEvents evs s in
  map rect_identity (State.rectangles s') = map rect_identity (State.rectangles s)
  /\ List.length (State.rectangles s') = List.length (State.rectangles s)
  /\ State.pageNumber s' = State.pageNumber s
  /\ State.jsonData s' = State.jsonData s
  /\ State.imageUrl s' = State.imageUrl s
  /\ State.loading s' = State.loading s
  /\ State.error s' = State.error s.
Proof.
  cbv zeta. unfold handlePointerEvents.
  revert s. induction evs as [|ev evs IH]; intros s; cbn [fold_left].
  - repeat split.
  - destruct (IH (handlePointerEvent s ev)) as (I1 & I2 & I3 & I4 & I5 & I6 & I7).
    destruct (handlePointerEvent_keeps s ev) as (K1 & K3 & K4 & K5 & K6 & K7).
    rewrite I1, I3, I4, I5, I6, I7. repeat split; try assumption.
    rewrite I2. rewrite <- (length_map rect_identity), K1. apply length_map.
Qed.

(** Editing never changes which block a rectangle stands for: after any
    pointer events on the rectangles derived from a block list, the
    rectangle at position [i] still has the id, colour and type derived
    from block [i], and there are as many rectangles as blocks. *)
Theorem edited_rectangles_match_blocks (blocks : list (Block.t num))
    (evs : list (PointerEvent num)) (s : State.t num) :
  State.rectangles s = array_map_index blockToRect blocks ->
  let s' := handlePointerEvents evs s in
  List.length (State.rectangles s') = List.length blocks
  /\ forall i, option_map rect_identity (nth_error (State.rectangles s') i)
               = option_map (fun b => rect_identity (blockToRect b i))
                            (nth_error blocks i).
Proof.
  intros Hderived. cbv zeta.
  assert (map rect_identity (State.rectangles (handlePointerEvents evs s))
          = map rect_identity (array_map_index blockToRect blocks)) as Hid.
  { rewrite <- Hderived. unfold handlePointerEvents.
    clear Hderived. revert s. induction evs as [|ev evs IH]; intros s; cbn [fold_left].
    - reflexivity.
    - rewrite IH. apply handlePointerEvent_keeps. }
  split.
  - rewrite <- (length_map rect_identity), Hid, length_map.
    apply map_from_length.
  - intros i. rewrite <- nth_error_map, Hid, nth_error_map.
    unfold array_map_index. rewrite map_from_nth_error.
    destruct (nth_error blocks i); reflexivity.
Qed.

End EditingSession.

(** * Properties of the drawing *)

Section DrawingProofs.
Context {num : Type} `{JsNumber num}.
Local Open Scope list_scope.

(** [drawRectangles] draws exactly when the canvas, its 2d context, the
    image and a loaded document are all there; if one is missing nothing
    is drawn, whatever rectangles the state holds. *)
Theorem drawRectangles_nothing_iff (canvas : option CanvasElement.t)
    (image : option (Size.t num)) (s : State.t num) :
  drawRectangles canvas image s = []
  <-> (canvas = None
       \/ canvas = Some (CanvasElement.mk false)
       \/ image = None
       \/ State.jsonData s = None).
Proof.
  unfold drawRectangles.
  destruct canvas as [[[|]]|], (State.jsonData s), image; cbn [negb CanvasElement.has2dContext];
    split; intros Hyp; try reflexivity; try discriminate; auto;
    destruct Hyp as [Hyp|[Hyp|[Hyp|Hyp]]]; discriminate.
Qed.

Lemma flat_map_drawRect_length (rects : list (DraggableRect.t num)) :
  List.length (flat_map drawRect rects) = (14 * List.length rects)%nat.
Proof.
  induction rects as [|r rects IH]; [reflexivity|].
  cbn [flat_map]. rewrite length_app, IH. cbn [drawRect List.length]. lia.
Qed.

Lemma flat_map_drawRect_handles (rects : list (DraggableRect.t num)) :
  List.length (filter isFillRect (flat_map drawRect rects))
  = (8 * List.length rects)%nat.
Proof.
  induction rects as [|r rects IH]; [reflexivity|].
  cbn [flat_map]. rewrite filter_app, length_app, IH.
  cbn [drawRect filter isFillRect List.length]. lia.
Qed.

(** When it draws, [drawRectangles] sizes the canvas to the image, clears
    it and then issues fourteen commands per rectangle, eight of them
    handle squares: no rectangle is skipped and none is drawn twice. *)
Theorem drawRectangles_counts (image : Size.t num) (s : State.t num) :
  State.jsonData s <> None ->
  let cmds := drawRectangles (Some (CanvasElement.mk true)) (Some image) s in
  firstn 3 cmds
    = [ SetCanvasWidth (Size.width image); SetCanvasHeight (Size.height image);
        ClearRect (num_lit 0) (num_lit 0) (Size.width image) (Size.height image) ]
  /\ List.length cmds = (3 + 14 * List.length (State.rectangles s))%nat
  /\ List.length (filter isFillRect cmds)
     = (8 * List.length (State.rectangles s))%nat.
Proof.
  intros Hdoc. cbv zeta. unfold drawRectangles.
  destruct (State.jsonData s); [|now contradiction Hdoc].
  cbn [negb CanvasElement.has2dContext firstn List.length filter isFillRect].
  rewrite flat_map_drawRect_length, flat_map_drawRect_handles.
  repeat split.
Qed.

Lemma drawRect_handles (r : DraggableRect.t num) :
  filter isFillRect (drawRect r)
  = map (fun c => handleSquare (snd c)) (handleCentres r).
Proof. reflexivity. Qed.

Lemma spec_handleTests_centres (x y : num) (r : DraggableRect.t num) :
  firstn 8 (spec_handleTests x y r)
  = map (fun c => (fst c, spec_near x (fst (snd c)) && spec_near y (snd (snd c))))
        (handleCentres r).
Proof. reflexivity. Qed.

(** The eight squares drawn for a rectangle are centred on the eight
    points that hit-testing measures the pointer against, in the same
    order: each handle is painted 8 px wide around the point whose 8 px
    neighbourhood grabs it. *)
Theorem handles_drawn_where_tested (x y : num) (r : DraggableRect.t num)
    (s : State.t num) :
  filter isFillRect (drawRect r)
    = map (fun c => handleSquare (snd c)) (handleCentres r)
  /\ hitCallback x y r s
     = match spec_firstMatch
               (map (fun c => (fst c, spec_near x (fst (snd c))
                                      && spec_near y (snd (snd c))))
                    (handleCentres r)
                ++ skipn 8 (spec_handleTests x y r)) with
       | Some m => (true, setDragMode m s)
       | None => (false, s)
       end
  /\ map fst (skipn 8 (spec_handleTests x y r)) = [DragMode.Move].
Proof.
  split; [apply drawRect_handles|]. split; [|reflexivity].
  rewrite hitCallback_spec. unfold spec_hitMode.
  rewrite <- spec_handleTests_centres, firstn_skipn. reflexivity.
Qed.

Lemma spec_firstMatch_some {A : Type} (tests : list (A * bool)) (a : A) :
  In (a, true) tests -> spec_firstMatch tests <> None.
Proof.
  induction tests as [|[a' b] tests IH]; cbn; [contradiction|].
  intros [E|Hin].
  - injection E as -> ->. discriminate.
  - destruct b; [discriminate | now apply IH].
Qed.

Lemma spec_hitTest_some (x y : num) (rects : list (DraggableRect.t num))
    (r : DraggableRect.t num) :
  In r rects -> spec_hitMode x y r <> None -> spec_hitTest x y rects <> None.
Proof.
  intros Hin Hr Hnone. apply spec_hitTest_none in Hnone.
  rewrite Forall_forall in Hnone. exact (Hr (Hnone r Hin)).
Qed.

End DrawingProofs.

(** * Properties in exact arithmetic *)

(** The properties of this part depend on the order of the coordinates
    and are proved for [number], the exact rationals with one
    non-number. *)

Lemma painted_near (p c : number) :
  num_ge p (num_sub c (num_div (num_lit 8) (num_lit 2))) = true ->
  num_le p (num_add (num_sub c (num_div (num_lit 8) (num_lit 2))) (num_lit 8)) = true ->
  spec_near p c = true.
Proof.
  number_unfold.
  destruct p as [p|], c as [c|]; try discriminate.
  intros Hlow Hhigh. number_arith.
  apply Qabs_Qle_condition.
  assert (inject_Z 8 / inject_Z 2 == 4) as E by reflexivity.
  rewrite E in Hlow, Hhigh. unfold inject_Z in *.
  split; lra.
Qed.

Lemma onPainted_handle (px py : number) (r : DraggableRect.t number)
    (c : CanvasCmd number) :
  In c (drawRect r) ->
  onPainted px py c = true ->
  exists centre,
    In centre (handleCentres r)
    /\ spec_near px (fst (snd centre)) = true
    /\ spec_near py (snd (snd centre)) = true.
Proof.
  intros Hin Hon.
  assert (In c (filter isFillRect (drawRect r))) as Hf.
  { apply filter_In. split; [exact Hin|]. now destruct c. }
  rewrite drawRect_handles in Hf. apply in_map_iff in Hf.
  destruct Hf as (centre & <- & Hcentre).
  exists centre. split; [exact Hcentre|].
  unfold handleSquare, onPainted in Hon.
  apply andb_prop in Hon. destruct Hon as (Hon & Hy2).
  apply andb_prop in Hon. destruct Hon as (Hon & Hy1).
  apply andb_prop in Hon. destruct Hon as (Hx1 & Hx2).
  split; apply painted_near; assumption.
Qed.

(** Every painted handle can be grabbed: a pointer-down on the painted
    square of any handle of any displayed rectangle starts a drag of some
    rectangle of the list (that one, or one earlier in the list that the
    pointer also matches). *)
Theorem painted_handle_grabs (rect : DOMRect.t number) (e : MouseEvent.t number)
    (s : State.t number) (r : DraggableRect.t number) (c : CanvasCmd number) :
  In r (State.rectangles s) ->
  In c (drawRect r) ->
  onPainted (Point.x (pointerAt rect e)) (Point.y (pointerAt rect e)) c = true ->
  let s' := handleMouseDown (Some rect) e s in
  State.dragMode s' <> DragMode.None
  /\ exists r', In r' (State.rectangles s)
                /\ State.draggedRectId s' = Some (DraggableRect.id r').
Proof.
  intros Hr Hc Hon. cbv zeta.
  destruct (onPainted_handle _ _ r c Hc Hon) as (centre & Hcentre & Hx & Hy).
  assert (spec_hitMode (Point.x (pointerAt rect e)) (Point.y (pointerAt rect e)) r
          <> None) as Hmode.
  { unfold spec_hitMode. apply (spec_firstMatch_some _ (fst centre)).
    rewrite <- (firstn_skipn 8 (spec_handleTests _ _ r)).
    apply in_or_app. left. rewrite spec_handleTests_centres.
    apply in_map_iff. exists centre. rewrite Hx, Hy. split; [reflexivity | exact Hcentre]. }
  pose proof (spec_hitTest_some _ _ _ r Hr Hmode) as Hhit.
  rewrite handleMouseDown_unfold.
  destruct (spec_hitTest _ _ _) as [[r' m]|] eqn:E; [|now contradiction Hhit].
  destruct (spec_hitTest_in _ _ _ _ _ E) as (Hin' & Hm').
  split.
  - cbn. now apply spec_hitMode_not_None in Hm'.
  - exists r'. split; [exact Hin' | reflexivity].
Qed.

(** * Further properties of the page loader *)

Section LoaderProofs.
Context {num : Type}.

Ltac load_unfold :=
  unfold loadFilesFrom, loadFiles, try_catch, bind, await, call, throw, ret.

Ltac load_cases browser :=
  repeat match goal with
         | |- context [Browser.fetch browser ?u] =>
             let r := fresh "response" in
             destruct (Browser.fetch browser u) as [?|r]
         | |- context [Response.ok ?r] => destruct (Response.ok r)
         | |- context [Response.json ?r] => destruct (Response.json r)
         | |- context [Response.blob ?r] => destruct (Response.blob r)
         end.

(** However the two requests end, a load settles with the loading flag
    cleared, leaves the page number, the rectangles, the drag state and
    the image dimensions alone, never resets a stored error to none, and
    never both reports an error and replaces the image. *)
Theorem loadFiles_always_settles (props : Props.t) (browser : Browser.t num)
    (s : State.t num) :
  let s' := loadFilesFrom props browser s in
  State.loading s' = false
  /\ State.pageNumber s' = State.pageNumber s
  /\ State.rectangles s' = State.rectangles s
  /\ State.dragMode s' = State.dragMode s
  /\ State.draggedRectId s' = State.draggedRectId s
  /\ State.lastMousePos s' = State.lastMousePos s
  /\ State.imageDimensions s' = State.imageDimensions s
  /\ (State.error s <> None -> State.error s' <> None)
  /\ (State.error s' = State.error s \/ State.imageUrl s' = State.imageUrl s).
Proof.
  cbv zeta. load_unfold. cbn [State.pageNumber setLoading].
  load_cases browser; cbn; repeat split; auto; discriminate.
Qed.

(** When both requests succeed, the document and the object URL of the
    image are stored and nothing else changes, the error least of all:
    a message left by an earlier failed load is still there and is still
    what the component renders. *)
Theorem loadFiles_success (props : Props.t) (browser : Browser.t num)
    (s : State.t num) (jsonResponse imageResponse : Response.t num)
    (data : option (JsonData.t num)) (imageBlob : Blob) :
  let formattedPageNumber := Props.formatPageNumber props (State.pageNumber s) in
  Browser.fetch browser (jsonUrl props browser formattedPageNumber)
    = inr jsonResponse ->
  Response.ok jsonResponse = true ->
  Response.json jsonResponse = inr data ->
  Browser.fetch browser (imageUrlOf props browser formattedPageNumber)
    = inr imageResponse ->
  Response.ok imageResponse = true ->
  Response.blob imageResponse = inr imageBlob ->
  let s' := loadFilesFrom props browser s in
  s' = setLoading false
         (setImageUrl (Some (Browser.createObjectURL browser imageBlob))
            (setJsonData data s))
  /\ State.error s' = State.error s
  /\ (forall message, truthy_string (State.error s) = Some message ->
                      render s' = ErrorView message).
Proof.
  intros formattedPageNumber Hjson Hjok Hdata Himage Hiok Hblob.
  subst formattedPageNumber. cbv zeta.
  load_unfold. cbn [State.pageNumber setLoading].
  rewrite Hjson, Hjok. cbn [negb]. rewrite Hdata, Himage, Hiok. cbn [negb].
  rewrite Hblob. cbn. repeat split.
  intros message Hm. unfold render. cbn. now rewrite Hm.
Qed.

(** What is stored when a request or a body read rejects: the message of
    a thrown [Error], and ["An unknown error occurred"] for any other
    thrown value.  A failure of the JSON half leaves the document as it
    was; a failure of the image half comes after the document has been
    stored. *)
Theorem loadFiles_rejections (props : Props.t) (browser : Browser.t num)
    (s : State.t num) (err : Thrown) :
  let formattedPageNumber := Props.formatPageNumber props (State.pageNumber s) in
  let jsonRequest := Browser.fetch browser (jsonUrl props browser formattedPageNumber) in
  let imageRequest := Browser.fetch browser (imageUrlOf props browser formattedPageNumber) in
  let s' := loadFilesFrom props browser s in
  let failed before :=
    s' = setLoading false (setError (Some (caughtMessage err)) before) in
  (jsonRequest = inl err -> failed (setLoading true s))
  /\ (forall jsonResponse,
        jsonRequest = inr jsonResponse ->
        Response.ok jsonResponse = true ->
        Response.json jsonResponse = inl err ->
        failed (setLoading true s))
  /\ (forall jsonResponse data,
        jsonRequest = inr jsonResponse ->
        Response.ok jsonResponse = true ->
        Response.json jsonResponse = inr data ->
        imageRequest = inl err ->
        failed (setJsonData data (setLoading true s)))
  /\ (forall jsonResponse data imageResponse,
        jsonRequest = inr jsonResponse ->
        Response.ok jsonResponse = true ->
        Response.json jsonResponse = inr data ->
        imageRequest = inr imageResponse ->
        Response.ok imageResponse = true ->
        Response.blob imageResponse = inl err ->
        failed (setJsonData data (setLoading true s))).
Proof.
  cbv zeta. load_unfold. cbn [State.pageNumber setLoading].
  split; [|split; [|split]].
  - intros ->. now destruct err.
  - intros jsonResponse -> -> ->. now destruct err.
  - intros jsonResponse data -> -> -> ->. now destruct err.
  - intros jsonResponse data imageResponse -> -> -> -> -> ->. now destruct err.
Qed.

(** A load looks at the answers to its two requests and at nothing else
    the browser could answer: two browsers that agree on those two
    requests (and on the two helper functions) leave the same state.
    When the JSON half fails, the image request is not looked at
    either. *)
Theorem loadFiles_requests_only (props : Props.t) (b1 b2 : Browser.t num)
    (s : State.t num) :
  let formattedPageNumber := Props.formatPageNumber props (State.pageNumber s) in
  (forall str, Browser.encodeURIComponent b1 str = Browser.encodeURIComponent b2 str) ->
  (forall blob, Browser.createObjectURL b1 blob = Browser.createObjectURL b2 blob) ->
  Browser.fetch b1 (jsonUrl props b1 formattedPageNumber)
    = Browser.fetch b2 (jsonUrl props b1 formattedPageNumber) ->
  (Browser.fetch b1 (imageUrlOf props b1 formattedPageNumber)
     = Browser.fetch b2 (imageUrlOf props b1 formattedPageNumber)
   \/ jsonStageFails (Browser.fetch b1 (jsonUrl props b1 formattedPageNumber)) = true) ->
  loadFilesFrom props b1 s = loadFilesFrom props b2 s.
Proof.
  intros formattedPageNumber Henc Hurl Hjson Himage.
  assert (jsonUrl props b2 formattedPageNumber
          = jsonUrl props b1 formattedPageNumber) as Eju
      by (unfold jsonUrl; now rewrite Henc).
  assert (imageUrlOf props b2 formattedPageNumber
          = imageUrlOf props b1 formattedPageNumber) as Eiu
      by (unfold imageUrlOf; now rewrite Henc).
  load_unfold. cbn [State.pageNumber setLoading].
  fold formattedPageNumber. rewrite Eju, Eiu, <- Hjson.
  set (jsonRequest := Browser.fetch b1 (jsonUrl props b1 formattedPageNumber)) in *.
  destruct jsonRequest as [err|jsonResponse]; [reflexivity|].
  cbn [jsonStageFails] in Himage.
  destruct (Response.ok jsonResponse); cbn [negb orb] in *; [|reflexivity].
  destruct (Response.json jsonResponse) as [err|data]; [reflexivity|].
  destruct Himage as [Himage|Himage]; [|discriminate].
  rewrite <- Himage.
  set (imageRequest := Browser.fetch b1 (imageUrlOf props b1 formattedPageNumber)).
  destruct imageRequest as [err|imageResponse]; [reflexivity|].
  destruct (Response.ok imageResponse); cbn [negb]; [|reflexivity].
  destruct (Response.blob imageResponse) as [err|imageBlob]; [reflexivity|].
  cbn. now rewrite Hurl.
Qed.

End LoaderProofs.

(** * Further properties of the derivation and of navigation *)

Section DerivationEdges.
Context {num : Type} `{JsNumber num}.
Local Open Scope list_scope.

(** Edge behaviour of the [jsonData] effect: with no document it does
    nothing; with a document whose [pdf_info] is empty it throws; only
    the first entry of [pdf_info] is read, later pages never matter. *)
Theorem jsonDataEffect_edges (s : State.t num) :
  (State.jsonData s = None -> jsonDataEffect s = Some s)
  /\ jsonDataEffect (setJsonData (Some (JsonData.mk [])) s) = None
  /\ (forall page rest rest',
        option_map State.rectangles
          (jsonDataEffect (setJsonData (Some (JsonData.mk (page :: rest))) s))
        = option_map State.rectangles
            (jsonDataEffect (setJsonData (Some (JsonData.mk (page :: rest'))) s))).
Proof.
  split; [|split].
  - unfold jsonDataEffect. now intros ->.
  - reflexivity.
  - intros page rest rest'. unfold jsonDataEffect.
    cbn [State.jsonData setJsonData JsonData.pdf_info].
    destruct (PageInfo.preproc_blocks page); reflexivity.
Qed.

(** The effect only ever writes the rectangles: its result is the state
    it started from with the rectangles replaced, so each of the nine
    other fields is as before; and running it again on its own result
    changes nothing more. *)
Theorem jsonDataEffect_idempotent (s s' : State.t num) :
  jsonDataEffect s = Some s' ->
  jsonDataEffect s' = Some s'
  /\ State.jsonData s' = State.jsonData s
  /\ State.pageNumber s' = State.pageNumber s
  /\ State.dragMode s' = State.dragMode s
  /\ State.draggedRectId s' = State.draggedRectId s
  /\ State.lastMousePos s' = State.lastMousePos s
  /\ State.loading s' = State.loading s
  /\ State.error s' = State.error s
  /\ State.imageUrl s' = State.imageUrl s
  /\ State.imageDimensions s' = State.imageDimensions s
  /\ s' = setRectangles (fun _ => State.rectangles s') s.
Proof.
  unfold jsonDataEffect.
  destruct (State.jsonData s) as [doc|] eqn:Edoc.
  - destruct (JsonData.pdf_info doc) as [|page rest] eqn:Einfo; [discriminate|].
    destruct (PageInfo.preproc_blocks page) as [blocks|] eqn:Eblocks.
    + intros [= <-]. cbn [State.jsonData setRectangles].
      rewrite Edoc, Einfo, Eblocks. repeat split.
    + intros [= <-]. rewrite Edoc, Einfo, Eblocks. repeat split.
      now destruct s.
  - intros [= <-]. rewrite Edoc. repeat split. now destruct s.
Qed.

(** Next then Previous returns to the state one started from on every
    integer page from 0 below [2^53], and Previous then Next on every
    integer page from 1 to [2^53]; of the integer pages from 0 to [2^53]
    only page 0 has the Previous button disabled.  Whenever the page
    number is at or below 0, which is when the Previous button is
    disabled, Previous stores 0 and Previous then Next lands on page 1.
    Neither handler touches anything but the page number. *)
Theorem page_navigation_round_trip (s : State.t num) :
  (forall n : Z, State.pageNumber s = float_of_Z n ->
     ((0 <= n < 2 ^ 53)%Z -> handlePreviousPage (handleNextPage s) = s)
     /\ ((1 <= n <= 2 ^ 53)%Z -> handleNextPage (handlePreviousPage s) = s)
     /\ ((0 <= n <= 2 ^ 53)%Z -> previousDisabled s = (n =? 0)%Z))
  /\ (previousDisabled s = true ->
        State.pageNumber (handlePreviousPage s) = 0%float
        /\ State.pageNumber (handleNextPage (handlePreviousPage s)) = 1%float)
  /\ setPageNumber (fun _ => State.pageNumber s) (handleNextPage s) = s
  /\ setPageNumber (fun _ => State.pageNumber s) (handlePreviousPage s) = s.
Proof.
  destruct s as [page url doc loading err dims rects mode dragged last].
  unfold handlePreviousPage, handleNextPage, setPageNumber, previousDisabled.
  cbn [State.pageNumber State.imageUrl State.jsonData State.loading State.error
       State.imageDimensions State.rectangles State.dragMode State.draggedRectId
       State.lastMousePos].
  split; [|split; [|split; reflexivity]].
  - intros n ->. split; [|split]; intros Hn.
    + f_equal. rewrite float_of_Z_succ, float_of_Z_pred by lia.
      replace (n + 1 - 1)%Z with n by lia.
      apply Math_max_0_float_of_Z. lia.
    + f_equal.
      rewrite float_of_Z_pred, Math_max_0_float_of_Z, float_of_Z_succ by lia.
      f_equal. lia.
    + apply leb_float_of_Z_0, Hn.
  - intros Hle.
    rewrite (Math_max_0_signed _ (sub_1_signed _ Hle)). split; reflexivity.
Qed.

End DerivationEdges.

(** * Properties of the page-number format *)

Lemma padStart_spec (targetLength : nat) (pad : ascii) (str : string) :
  exists padding,
    padStart targetLength pad str = padding ++ str
    /\ String.length padding = (targetLength - String.length str)%nat
    /\ (forall i c, String.get i padding = Some c -> c = pad).
Proof.
  unfold padStart.
  exists (String.concat "" (repeat (String pad "") (targetLength - String.length str))).
  split; [reflexivity|].
  induction (targetLength - String.length str)%nat as [|k [IHlen IHget]].
  - split; [reflexivity|]. intros i c. destruct i; discriminate.
  - assert (String.concat "" (repeat (String pad "") (S k))
            = String pad (String.concat "" (repeat (String pad "") k))) as E.
    { cbn [repeat String.concat]. destruct (repeat (String pad "") k); reflexivity. }
    rewrite E. split.
    + cbn [String.length]. now rewrite IHlen.
    + intros [|i] c; cbn [String.get]; [now intros [= <-] | apply IHget].
Qed.

Lemma string_length_append (a b : string) :
  String.length (a ++ b) = (String.length a + String.length b)%nat.
Proof. induction a as [|c a IH]; cbn; [reflexivity | now rewrite IH]. Qed.

Lemma all_from_spec (P : Z -> bool) (count : nat) (start n : Z) :
  all_from P start count = true ->
  (start <= n < start + Z.of_nat count)%Z -> P n = true.
Proof.
  revert start. induction count as [|count IH]; intros start Hall Hn; [lia|].
  cbn [all_from] in Hall. apply andb_prop in Hall as [Hstart Hrest].
  destruct (Z.eq_dec n start) as [->|Hne]; [exact Hstart|].
  apply (IH (start + 1)%Z Hrest). lia.
Qed.

(** Each of the pages 0 to 9999 is printed as its decimal digits: by
    running [Number_toString] on every one of them. *)
Lemma Number_toString_page (n : Z) :
  (0 <= n < 10000)%Z ->
  Number_toString (float_of_Z n) = NilEmpty.string_of_int (Z.to_int n).
Proof.
  intros Hn.
  assert (all_from prints_decimal 0 (100 * 100) = true) as Hall
    by (vm_compute; reflexivity).
  apply String.eqb_eq. apply (all_from_spec _ _ _ n Hall).
  change (Z.of_nat (100 * 100)) with 10000%Z. lia.
Qed.

(** What [toString] returns on doubles of every kind, as the engines
    print them. *)
Example Number_toString_examples :
  Number_toString 1 = "1"
  /\ Number_toString 1.5 = "1.5"
  /\ Number_toString (1 / 10) = "0.1"
  /\ Number_toString (1 / 3) = "0.3333333333333333"
  /\ Number_toString (-2.5) = "-2.5"
  /\ Number_toString (- 0) = "0"
  /\ Number_toString (0 / 0) = "NaN"
  /\ Number_toString (1 / 0) = "Infinity"
  /\ Number_toString (1 / 1000000) = "0.000001"
  /\ Number_toString (1 / 10000000) = "1e-7"
  /\ Number_toString 9007199254740992 = "9007199254740992"
  /\ Number_toString 1152921504606846976 = "1152921504606847000"
  /\ Number_toString 1e20 = "100000000000000000000"
  /\ Number_toString 1e21 = "1e+21".
Proof. vm_compute. repeat split. Qed.

(** [formatPageNumber] as [App] passes it never shortens: for every
    double the result ends with what [toString] returns for it, is
    preceded only by ['0'] characters and is at least four characters
    long.  For the pages 0 to 9999 [toString] returns the decimal digits
    and the result is exactly four characters long; the page [10^21] is
    formatted as [1e+21]. *)
Theorem App_formatPageNumber_padding (num : float) :
  let digits := Number_toString num in
  (exists padding,
     App_formatPageNumber num = padding ++ digits
     /\ (forall i c, String.get i padding = Some c -> c = "0"%char))
  /\ String.length (App_formatPageNumber num) = Nat.max 4 (String.length digits)
  /\ (forall n : Z, (0 <= n < 10000)%Z -> num = float_of_Z n ->
        digits = NilEmpty.string_of_int (Z.to_int n)
        /\ String.length (App_formatPageNumber num) = 4%nat)
  /\ App_formatPageNumber 1e21 = "1e+21".
Proof.
  cbv zeta. unfold App_formatPageNumber at 1 2 3.
  destruct (padStart_spec 4 "0"%char (Number_toString num))
    as (padding & E & Hlen & Hpad).
  split; [exists padding; split; assumption|].
  split; [rewrite E, string_length_append, Hlen; lia|].
  split; [|vm_compute; reflexivity].
  intros n Hrange ->. rewrite Number_toString_page by exact Hrange.
  split; [reflexivity|].
  assert (forallb (fun k => Nat.eqb (String.length
                                       (padStart 4 "0"%char
                                          (NilEmpty.string_of_int
                                             (Z.to_int (Z.of_nat k))))) 4)
                  (seq 0 (100 * 100)) = true) as Hall by (vm_compute; reflexivity).
  rewrite forallb_forall in Hall.
  specialize (Hall (Z.to_nat n)).
  rewrite Z2Nat.id in Hall by lia.
  apply Nat.eqb_eq, Hall, in_seq. lia.
Qed.

Lemma uint_of_string_padded (padding str : string) :
  (forall i c, String.get i padding = Some c -> c = "0"%char) ->
  option_map Z.of_uint (NilEmpty.uint_of_string (padding ++ str))
  = option_map Z.of_uint (NilEmpty.uint_of_string str).
Proof.
  induction padding as [|c padding IH]; intros Hpad; [reflexivity|].
  assert (c = "0"%char) as -> by (apply (Hpad 0%nat); reflexivity).
  rewrite <- IH by (intros i c Hget; apply (Hpad (S i)); exact Hget).
  cbn [append NilEmpty.uint_of_string].
  destruct (NilEmpty.uint_of_string (padding ++ str)); reflexivity.
Qed.

Lemma App_formatPageNumber_parse (n : Z) :
  (0 <= n < 10000)%Z ->
  option_map Z.of_uint
    (NilEmpty.uint_of_string (App_formatPageNumber (float_of_Z n))) = Some n.
Proof.
  intros Hn. unfold App_formatPageNumber.
  rewrite Number_toString_page by exact Hn.
  destruct (padStart_spec 4 "0"%char (NilEmpty.string_of_int (Z.to_int n)))
    as (padding & -> & _ & Hpad).
  rewrite (uint_of_string_padded _ _ Hpad).
  pose proof (DecimalZ.of_to n) as Hround.
  destruct n as [|p|p]; [| |lia]; cbn [Z.to_int NilEmpty.string_of_int] in *;
    rewrite NilEmpty.usu; cbn [option_map]; f_equal; exact Hround.
Qed.

(** On the pages 0 to 9999 the page number can be read back from its
    formatted name, so distinct pages get distinct file names: parsing
    the name of page [n] as a decimal number gives [n], and no other of
    these pages has the same name. *)
Theorem App_formatPageNumber_round_trip (n : Z) :
  (0 <= n < 10000)%Z ->
  option_map Z.of_uint
    (NilEmpty.uint_of_string (App_formatPageNumber (float_of_Z n))) = Some n
  /\ forall m, (0 <= m < 10000)%Z ->
       App_formatPageNumber (float_of_Z n) = App_formatPageNumber (float_of_Z m) ->
       n = m.
Proof.
  intros Hn. split; [now apply App_formatPageNumber_parse|].
  intros m Hm E.
  pose proof (App_formatPageNumber_parse n Hn) as Pn.
  pose proof (App_formatPageNumber_parse m Hm) as Pm.
  rewrite E in Pn. congruence.
Qed.

Lemma clamp_bounds (lo hi v : Q) :
  lo < hi ->
  exists c,
    number_min (Some hi) (number_max (Some lo) (Some v)) = Some c
    /\ lo <= c /\ c <= hi
    /\ (v < lo -> c = lo)
    /\ (hi <= v -> c = hi).
Proof.
  intros Hle. unfold number_min, number_max.
  destruct (Qle_bool lo v) eqn:E1;
    [apply Qle_bool_iff in E1
    | apply not_true_iff_false in E1; rewrite Qle_bool_iff in E1;
      apply Qnot_le_lt in E1];
    match goal with
    | |- context [Qle_bool ?a ?b] =>
        destruct (Qle_bool a b) eqn:E2;
          [apply Qle_bool_iff in E2
          | apply not_true_iff_false in E2; rewrite Qle_bool_iff in E2;
            apply Qnot_le_lt in E2]
    end;
    eexists; (split; [reflexivity|]);
    repeat split; intros; try lra; try reflexivity; exfalso; lra.
Qed.

Lemma clamp_scaled (lo hi k w : Q) :
  lo < hi ->
  exists c,
    number_min (Some hi)
      (number_max (Some lo)
         (number_mul (Some k) (@num_div number _ (Some w) (@num_lit number _ 1000))))
    = Some c
    /\ lo <= c /\ c <= hi
    /\ (k * w < 1000 * lo -> c = lo)
    /\ (1000 * hi <= k * w -> c = hi).
Proof.
  intros Hlt.
  cbv [num_div num_lit number_JsNumber number_mul number_lift2].
  destruct (clamp_bounds lo hi (Qred (k * Qred (w / inject_Z 1000))) Hlt)
    as (c & -> & H1 & H2 & H3 & H4).
  assert (Qred (k * Qred (w / inject_Z 1000)) == k * w * (1 # 1000)) as Hv.
  { rewrite !Qred_correct. unfold Qdiv.
    change (/ inject_Z 1000) with (1 # 1000). ring. }
  exists c. split; [reflexivity|]. repeat split; try assumption.
  - intros Hsmall. apply H3. rewrite Hv. set (kw := k * w) in *. lra.
  - intros Hlarge. apply H4. rewrite Hv. set (kw := k * w) in *. lra.
Qed.

(** The button sizes are clamped: for an image of any finite width the
    button width is between 20 and 40 percent, the font size between 1
    and 1.6 rem and the paddings between 0.4 and 0.8 rem and between 0.6
    and 1.2 rem; up to 600 px wide all four are at their minimum, from
    1400 px on all four are at their maximum. *)
Theorem getRelativeSizes_bounds (s : State.t number) (w : Q) :
  Size.width (State.imageDimensions s) = Some w ->
  exists bw fs pv ph : Q,
    getRelativeSizes s = RelativeSizes.mk (Some bw) (Some fs) (Some pv) (Some ph)
    /\ 20 <= bw <= 40
    /\ 1 <= fs <= 16 # 10
    /\ 4 # 10 <= pv <= 8 # 10
    /\ 6 # 10 <= ph <= 12 # 10
    /\ (w <= 600 ->
        getRelativeSizes s
        = RelativeSizes.mk (num_lit 20) (num_lit 1) (tenths 4) (tenths 6))
    /\ (1400 <= w ->
        getRelativeSizes s
        = RelativeSizes.mk (num_lit 40) (tenths 16) (tenths 8) (tenths 12)).
Proof.
  intros Hw. unfold getRelativeSizes. cbv zeta. rewrite Hw.
  change (num_lit 40) with (Some (inject_Z 40)).
  change (num_lit 20) with (Some (inject_Z 20)).
  change (num_lit 30) with (Some (inject_Z 30)).
  change (num_lit 1) with (Some (inject_Z 1)).
  unfold tenths.
  destruct (clamp_scaled (inject_Z 20) (inject_Z 40) (inject_Z 30) w)
    as (bw & Ebw & B1 & B2 & B3 & B4); [reflexivity|].
  destruct (clamp_scaled (inject_Z 1) (Qred (16 # 10)) (Qred (13 # 10)) w)
    as (fs & Efs & F1 & F2 & F3 & F4); [reflexivity|].
  destruct (clamp_scaled (Qred (4 # 10)) (Qred (8 # 10)) (Qred (6 # 10)) w)
    as (pv & Epv & V1 & V2 & V3 & V4); [reflexivity|].
  destruct (clamp_scaled (Qred (6 # 10)) (Qred (12 # 10)) (Qred (9 # 10)) w)
    as (ph & Eph & P1 & P2 & P3 & P4); [reflexivity|].
  exists bw, fs, pv, ph. rewrite Ebw, Efs, Epv, Eph.
  split; [reflexivity|].
  eval_Qred. unfold inject_Z in *.
  repeat split; try lra.
  - intros Hsmall. rewrite B3, F3, V3, P3 by lra. reflexivity.
  - intros Hlarge. rewrite B4, F4, V4, P4 by lra. reflexivity.
Qed.

(** A bounding box with fewer than four entries gives a rectangle whose
    height is not a number, and with fewer than three its width is not a
    number either; such a rectangle has no body to click on. *)
Theorem blockToRect_short_bbox (type : string) (bbox : list number)
    (index : nat) (px py : number) :
  (List.length bbox < 4)%nat ->
  let r := blockToRect (Block.mk type bbox) index in
  DraggableRect.height r = None
  /\ ((List.length bbox < 3)%nat -> DraggableRect.width r = None)
  /\ nth_error (map snd (spec_handleTests px py r)) 8 = Some false.
Proof.
  intros Hlen. cbv zeta.
  assert (DraggableRect.height (blockToRect (Block.mk type bbox) index) = None) as Hh.
  { unfold blockToRect. cbn [Block.bbox DraggableRect.height].
    rewrite (nth_overflow bbox) by lia.
    cbn. now destruct (nth 1 bbox None). }
  split; [exact Hh|]. split.
  - intros Hlen3. unfold blockToRect. cbn [Block.bbox DraggableRect.width].
    rewrite (nth_overflow bbox) by lia.
    cbn. now destruct (nth 0 bbox None).
  - unfold spec_handleTests. cbn [map snd nth_error]. rewrite Hh.
    f_equal. rewrite !andb_false_iff. right.
    generalize (DraggableRect.y (blockToRect (Block.mk type bbox) index)).
    intros ry. clear Hh. number_unfold. now destruct py, ry.
Qed.

(** * A whole gesture *)

Section WholeGesture.
Context {num : Type} `{JsNumber num}.
Local Open Scope js_scope.

(** Press, move, release: when the press at [p0] grabs rectangle [r] in
    mode [m] and [r] has a non-empty id, the move to [p1] applies mode
    [m] with the delta [p1 - p0] to the rectangles carrying that id and
    to no other, and the release leaves the editor idle with the edit in
    place. *)
Theorem gesture_press_move_release (rect : DOMRect.t num)
    (e0 e1 : MouseEvent.t num) (s : State.t num)
    (r : DraggableRect.t num) (m : DragMode.t) :
  let p0 := pointerAt rect e0 in
  let p1 := pointerAt rect e1 in
  spec_hitTest (Point.x p0) (Point.y p0) (State.rectangles s) = Some (r, m) ->
  draggedRectId_falsy (Some (DraggableRect.id r)) = false ->
  let s' := handlePointerEvents
              [MouseDown (Some rect) e0; MouseMove (Some rect) e1; MouseUp] s in
  State.rectangles s'
    = map (dragCallback m (DraggableRect.id r)
             (Point.x p1 - Point.x p0) (Point.y p1 - Point.y p0))
          (State.rectangles s)
  /\ State.lastMousePos s' = p1
  /\ dragIdle s' = true.
Proof.
  intros p0 p1 Hhit Hid. cbv zeta.
  unfold handlePointerEvents. cbn [fold_left handlePointerEvent].
  rewrite handleMouseDown_unfold. fold p0. rewrite Hhit.
  assert (DragMode.eqb m DragMode.None = false) as Hm.
  { destruct (spec_hitTest_in _ _ _ _ _ Hhit) as (_ & Hmode).
    apply spec_hitMode_not_None in Hmode. now destruct m. }
  rewrite (handleMouseMove_dragging rect e1 _ (DraggableRect.id r))
    by (try assumption; reflexivity).
  repeat split.
Qed.

End WholeGesture.

(** * The further properties on the concrete page *)

Lemma jsonDataEffect_ids_distinct_witness :
  exists s',
    jsonDataEffect (setJsonData (Some page_doc) (initialState App_props)) = Some s'
    /\ NoDup (map DraggableRect.id (State.rectangles s'))
    /\ Forall (fun r => draggedRectId_falsy (Some (DraggableRect.id r)) = false)
              (State.rectangles s').
Proof.
  exact (jsonDataEffect_ids_distinct (initialState App_props) page_doc _ _ _
           eq_refl eq_refl).
Defined.

(** The text rectangle is grabbed by its top-left corner and resized; it
    is still [rect-0], grey and of type [text], and the title rectangle
    is still second. *)
Lemma edited_rectangles_match_blocks_witness :
  let blocks :=
    [ Block.mk "text" [num_lit 10; num_lit 20; num_lit 110; num_lit 70];
      Block.mk "title" [num_lit 0; num_lit 0; num_lit 10; num_lit 10] ] in
  let evs :=
    [ MouseDown (Some origin_canvas) (MouseEvent.mk (num_lit 12) (num_lit 22));
      MouseMove (Some origin_canvas) (MouseEvent.mk (num_lit 30) (num_lit 40));
      MouseUp ] in
  State.rectangles idle_state = array_map_index blockToRect blocks
  /\ map rect_identity (State.rectangles (handlePointerEvents evs idle_state))
     = [ ("rect-0", VString "grey", "text"); ("rect-1", VString "black", "title") ]
  /\ DraggableRect.x (hd title_rect (State.rectangles (handlePointerEvents evs idle_state)))
     = num_lit 28.
Proof.
  intros blocks evs.
  assert (State.rectangles idle_state = array_map_index blockToRect blocks)
    as Hderived by (vm_compute; reflexivity).
  split; [exact Hderived|].
  destruct (edited_rectangles_match_blocks blocks evs idle_state Hderived)
    as (Hlen & Hnth).
  split; [|vm_compute; reflexivity].
  pose proof (Hnth 0%nat) as H0. pose proof (Hnth 1%nat) as H1.
  destruct (State.rectangles (handlePointerEvents evs idle_state))
    as [|a [|b [|c l]]]; try discriminate Hlen.
  cbn [nth_error option_map blocks] in H0, H1.
  unfold rect_identity in *. cbn [map].
  injection H0 as -> -> ->. injection H1 as -> -> ->. reflexivity.
Defined.

Lemma drawRectangles_counts_witness :
  let s := setJsonData (Some page_doc) idle_state in
  let image := Size.mk (num_lit 800) (num_lit 1000) in
  State.jsonData s <> None
  /\ List.length (drawRectangles (Some (CanvasElement.mk true)) (Some image) s)
     = 31%nat
  /\ List.length (filter isFillRect
                    (drawRectangles (Some (CanvasElement.mk true)) (Some image) s))
     = 16%nat.
Proof.
  intros s image.
  assert (State.jsonData s <> None) as Hdoc by discriminate.
  split; [exact Hdoc|].
  destruct (drawRectangles_counts image s Hdoc) as (_ & Hlen & Hhandles).
  split; [exact Hlen | exact Hhandles].
Defined.

(** The right-edge handle of the text rectangle is painted on
    [106..114] x [41..49]; a press at [(113, 48)], on its painted corner,
    starts a drag. *)
Lemma painted_handle_grabs_witness :
  let e := MouseEvent.mk (num_lit 113) (num_lit 48) in
  let c := FillRect (num_lit 106) (num_lit 41) (num_lit 8) (num_lit 8) in
  In text_rect (State.rectangles idle_state)
  /\ In c (drawRect text_rect)
  /\ onPainted (Point.x (pointerAt origin_canvas e))
               (Point.y (pointerAt origin_canvas e)) c = true
  /\ State.dragMode (handleMouseDown (Some origin_canvas) e idle_state)
     <> DragMode.None.
Proof.
  intros e c.
  assert (In text_rect (State.rectangles idle_state)) as Hr by (left; reflexivity).
  assert (In c (drawRect text_rect)) as Hc by (do 11 right; left; reflexivity).
  assert (onPainted (Point.x (pointerAt origin_canvas e))
                    (Point.y (pointerAt origin_canvas e)) c = true) as Hon
      by reflexivity.
  split; [exact Hr|]. split; [exact Hc|]. split; [exact Hon|].
  exact (proj1 (painted_handle_grabs origin_canvas e idle_state text_rect c
                  Hr Hc Hon)).
Defined.

(** A load fails on the image, the next load succeeds: the document and
    the image are stored, and the old message is still what is shown. *)
Lemma loadFiles_success_witness :
  let failed := loadFilesFrom App_props (backend true false page_doc)
                              (initialState App_props) in
  let s' := loadFilesFrom App_props (backend true true next_doc) failed in
  State.jsonData s' = Some next_doc
  /\ State.imageUrl s' = Some "blob:page-1"
  /\ render s' = ErrorView "Failed to load image file".
Proof.
  intros failed s'.
  destruct (loadFiles_success App_props (backend true true next_doc) failed
              (Response.mk true (inr (Some next_doc)) (inr []))
              (Response.mk true (inl (ErrorObject "Unexpected token"))
                           (inr [Byte.x89; Byte.x50; Byte.x4e; Byte.x47]))
              (Some next_doc) [Byte.x89; Byte.x50; Byte.x4e; Byte.x47]
              eq_refl eq_refl eq_refl eq_refl eq_refl eq_refl)
    as (Hstate & _ & Hrender).
  split; [|split].
  - fold s' in Hstate. now rewrite Hstate.
  - fold s' in Hstate. now rewrite Hstate.
  - exact (Hrender "Failed to load image file" eq_refl).
Defined.

(** A backend that also serves other files gives the same page. *)
Lemma loadFiles_requests_only_witness :
  let other : Browser.t number :=
    Browser.mk
      (fun url =>
         match Browser.fetch (backend true true page_doc) url with
         | inl _ => inr (Response.mk true (inr None) (inr []))
         | inr response => inr response
         end)
      (fun str => str)
      (fun _ => "blob:page-1") in
  Browser.fetch other "http://localhost:8888/api/get-json-file?fileName=Fizika-0002"
    <> Browser.fetch (backend true true page_doc)
         "http://localhost:8888/api/get-json-file?fileName=Fizika-0002"
  /\ loadFilesFrom App_props (backend true true page_doc) (initialState App_props)
     = loadFilesFrom App_props other (initialState App_props).
Proof.
  intros other. split; [vm_compute; discriminate|].
  apply (loadFiles_requests_only App_props (backend true true page_doc) other
           (initialState App_props)).
  - intros str. reflexivity.
  - intros blob. reflexivity.
  - reflexivity.
  - left. reflexivity.
Defined.

Lemma jsonDataEffect_idempotent_witness :
  let s := setJsonData (Some next_doc) idle_state in
  let s' := setRectangles
              (fun _ => [ DraggableRect.mk "rect-0" (num_lit 5) (num_lit 5)
                            (num_lit 20) (num_lit 40) (VString "blue") "image" ]) s in
  jsonDataEffect s = Some s'
  /\ jsonDataEffect s' = Some s'.
Proof.
  intros s s'.
  assert (jsonDataEffect s = Some s') as Heffect by reflexivity.
  split; [exact Heffect|].
  exact (proj1 (jsonDataEffect_idempotent s s' Heffect)).
Defined.

Lemma App_formatPageNumber_round_trip_witness :
  (0 <= 1 < 10000)%Z
  /\ App_formatPageNumber 1 = "0001"
  /\ option_map Z.of_uint (NilEmpty.uint_of_string "0001") = Some 1%Z.
Proof.
  assert (0 <= 1 < 10000)%Z as Hpage by lia.
  split; [exact Hpage|]. split; [reflexivity|].
  exact (proj1 (App_formatPageNumber_round_trip 1 Hpage)).
Defined.

(** Before any image has loaded the width is 0 and the buttons have
    their minimum size. *)
Lemma getRelativeSizes_bounds_witness :
  Size.width (State.imageDimensions (initialState (num := number) App_props))
    = Some 0
  /\ getRelativeSizes (initialState App_props)
     = RelativeSizes.mk (num_lit 20) (num_lit 1) (tenths 4) (tenths 6).
Proof.
  assert (Size.width (State.imageDimensions (initialState (num := number) App_props))
          = Some 0) as Hw by reflexivity.
  split; [exact Hw|].
  destruct (getRelativeSizes_bounds (initialState App_props) 0 Hw)
    as (bw & fs & pv & ph & _ & _ & _ & _ & _ & Hsmall & _).
  apply Hsmall. discriminate.
Defined.

Lemma blockToRect_short_bbox_witness :
  let r : DraggableRect.t number :=
    blockToRect (Block.mk "text" [num_lit 10; num_lit 20]) 0 in
  (List.length [num_lit 10; num_lit 20] < 4)%nat
  /\ DraggableRect.x r = num_lit 10
  /\ DraggableRect.height r = None
  /\ DraggableRect.width r = None.
Proof.
  intros r.
  assert (List.length [@num_lit number _ 10; num_lit 20] < 4)%nat as Hlen by (cbn; lia).
  split; [exact Hlen|]. split; [reflexivity|].
  destruct (blockToRect_short_bbox "text" [num_lit 10; num_lit 20] 0
              (num_lit 0) (num_lit 0) Hlen) as (Hh & Hw & _).
  split; [exact Hh|]. apply Hw. cbn. lia.
Defined.

(** The text rectangle is pressed inside its body at [(50, 40)], dragged
    to [(57, 37)] and released: it has moved by [(7, -3)]. *)
Lemma gesture_press_move_release_witness :
  let e0 := MouseEvent.mk (num_lit 50) (num_lit 40) in
  let e1 := MouseEvent.mk (num_lit 57) (num_lit 37) in
  spec_hitTest (num_lit 50) (num_lit 40) (State.rectangles idle_state)
    = Some (text_rect, DragMode.Move)
  /\ State.rectangles
       (handlePointerEvents
          [ MouseDown (Some origin_canvas) e0; MouseMove (Some origin_canvas) e1;
            MouseUp ] idle_state)
     = [ DraggableRect.mk "rect-0" (num_lit 17) (num_lit 17) (num_lit 100) (num_lit 50)
                          (VString "grey") "text";
         title_rect ].
Proof.
  intros e0 e1.
  assert (spec_hitTest (Point.x (pointerAt origin_canvas e0))
                       (Point.y (pointerAt origin_canvas e0))
                       (State.rectangles idle_state)
          = Some (text_rect, DragMode.Move)) as Hhit by reflexivity.
  split; [exact Hhit|].
  destruct (gesture_press_move_release origin_canvas e0 e1 idle_state
              text_rect DragMode.Move Hhit eq_refl) as (Hrects & _).
  rewrite Hrects. reflexivity.
Defined.
